(** * data_checker: null, duplicate and outlier checks over pandas frames

    A shallow embedding of [data_checker.py]: the three per-column checks
    ([check_null], [check_duplicates], [check_outliers]), their assembly
    ([perform_checks]) and the per-sheet loop of [check_file].

    Numbers are IEEE binary64 values ([PrimFloat.float]), as numpy has them.
    A frame column is either a float64 column, where NaN is the missing
    marker, or an object column of optional strings, where [None] is the
    missing marker. Integer and boolean columns are numeric for pandas too
    and reach the arithmetic below through their float64 values; they are
    carried here as float64 columns, which is exact for integers up to 2^53
    in magnitude. Frames have the default [RangeIndex],
    as [read_csv] and [read_excel] build them. *)

From Stdlib Require Import Ascii String List ZArith Floats Lia Bool Sorted.
Import ListNotations.

Set Warnings "-inexact-float,-register-all".

(** ** Python values and dicts *)

(** The scalars and lists the results are made of. *)
Inductive pyval : Type :=
| PNone
| PInt (n : Z)
| PFloat (x : float)
| PStr (s : string)
| PList (l : list pyval).

(** A Python dict keeps insertion order; assigning to a key that is already
    present replaces the value in place. *)
Module PyDict.

Definition dict (V : Type) : Type := list (string * V).

Definition empty {V : Type} : dict V := [].

Fixpoint get {V : Type} (k : string) (d : dict V) : option V :=
  match d with
  | [] => None
  | (k', v) :: d' => if String.eqb k k' then Some v else get k d'
  end.

Fixpoint set {V : Type} (k : string) (v : V) (d : dict V) : dict V :=
  match d with
  | [] => [(k, v)]
  | (k', v') :: d' =>
      if String.eqb k k' then (k, v) :: d' else (k', v') :: set k v d'
  end.

Definition keys {V : Type} (d : dict V) : list string := map fst d.

(** [for x in xs: result[key x] = val x], from a given [result]. *)
Definition loop {A V : Type} (key : A -> string) (val : A -> V)
  (result : dict V) (xs : list A) : dict V :=
  fold_left (fun result x => set (key x) (val x) result) xs result.

(** [result = {}] and the loop above. *)
Definition collect {A V : Type} (key : A -> string) (val : A -> V)
  (xs : list A) : dict V :=
  loop key val empty xs.

End PyDict.

(** ** float64 *)

Module Float64.

(** numpy's conversion of a count to float64 (counts stay below 2^63). *)
Definition of_int (n : Z) : float := PrimFloat.of_uint63 (Uint63.of_Z n).

(** [a / b if b > 0 else 0], then [float(...)]. *)
Definition ratio (a b : Z) : float :=
  if (0 <? b)%Z then (of_int a / of_int b)%float else 0%float.

(** The float64 reduction [ndarray.sum]. numpy adds pairwise in blocks and
    bottleneck adds in row order; the checks are stated for any reduction. *)
Class Reduction : Type := np_sum : list float -> float.

(** The plain loop, which is numpy's order below eight elements. *)
Definition loop_sum : Reduction := fun xs => fold_left PrimFloat.add xs 0%float.

End Float64.

(** ** pandas *)

Module Pandas.
Import Float64.

(** What a column's dtype provides: the missing test, equality by value
    (the hash table's), and the conversion [tolist] applies. *)
Class Cell (V : Type) : Type := {
  isna : V -> bool;
  eqv : V -> V -> bool;
  to_py : V -> pyval
}.

#[export] Instance float64_cell : Cell float := {
  isna := PrimFloat.is_nan;
  eqv := PrimFloat.eqb;
  to_py := PFloat
}.

Definition object_isna (v : option string) : bool :=
  match v with None => true | Some _ => false end.

Definition object_eqv (v w : option string) : bool :=
  match v, w with
  | Some s, Some s' => String.eqb s s'
  | None, None => true
  | _, _ => false
  end.

Definition object_to_py (v : option string) : pyval :=
  match v with Some s => PStr s | None => PNone end.

#[export] Instance object_cell : Cell (option string) := {
  isna := object_isna;
  eqv := object_eqv;
  to_py := object_to_py
}.

(** What the hash table needs of equality by value. Only non-missing
    values are equal to themselves: NaN differs from NaN. *)
Class CellLaws (V : Type) `{Cell V} : Prop := {
  eqv_refl : forall x, isna x = false -> eqv x x = true;
  eqv_sym : forall x y, eqv x y = true -> eqv y x = true;
  eqv_trans : forall x y z, eqv x y = true -> eqv y z = true -> eqv x z = true
}.

(** A Series: values tagged with their index labels. *)
Definition Series (V : Type) : Type := list (nat * V).

Definition RangeIndex (n : nat) : list nat := seq 0 n.

Definition index {V : Type} (s : Series V) : list nat := map fst s.

Definition values {V : Type} (s : Series V) : list V := map snd s.

(** Elementwise operations keep the index. *)
Definition smap {V W : Type} (f : V -> W) (s : Series V) : Series W :=
  map (fun p => (fst p, f (snd p))) s.

Definition dropna {V : Type} `{Cell V} (s : Series V) : Series V :=
  filter (fun p => negb (isna (snd p))) s.

(** [mask.sum()] of a boolean Series. *)
Definition mask_sum (mask : Series bool) : Z :=
  Z.of_nat (length (filter snd mask)).

(** [s[mask]] for a boolean Series on the same index. *)
Definition select {V : Type} (s : Series V) (mask : Series bool) : Series V :=
  map fst (filter (fun p => snd (snd p)) (combine s mask)).

Definition occurrences {V : Type} `{Cell V} (v : V) (l : list V) : nat :=
  length (filter (eqv v) l).

(** [s.duplicated(keep=False)]: every entry whose value occurs again. *)
Definition duplicated_keep_False {V : Type} `{Cell V} (s : Series V)
  : Series bool :=
  smap (fun v => (1 <? occurrences v (values s))%nat) s.

(** [unique()]: one scan with a table of the values seen so far. *)
Fixpoint unique_from {V : Type} `{Cell V} (table l : list V) : list V :=
  match l with
  | [] => []
  | x :: l' =>
      if existsb (eqv x) table then unique_from table l'
      else x :: unique_from (x :: table) l'
  end.

Definition unique {V : Type} `{Cell V} (s : Series V) : list V :=
  unique_from [] (values s).

Definition nunique {V : Type} `{Cell V} (s : Series V) : Z :=
  Z.of_nat (length (unique (dropna s))).

(** [nanmean]: sum over count, NaN without values. *)
Definition nanmean {R : Reduction} (xs : list float) : float :=
  if (0 <? length xs)%nat then (np_sum xs / of_int (Z.of_nat (length xs)))%float
  else nan.

(** [nanvar] in two passes, NaN unless more than [ddof] values. *)
Definition nanvar {R : Reduction} (ddof : nat) (xs : list float) : float :=
  if (length xs <=? ddof)%nat then nan
  else
    let avg := (np_sum xs / of_int (Z.of_nat (length xs)))%float in
    let sqr := map (fun v => ((avg - v) * (avg - v))%float) xs in
    (np_sum sqr / of_int (Z.of_nat (length xs) - Z.of_nat ddof))%float.

Definition mean {R : Reduction} (s : Series float) : float := nanmean (values s).

(** [std()] has [ddof=1]. *)
Definition std {R : Reduction} (s : Series float) : float :=
  PrimFloat.sqrt (nanvar 1 (values s)).

(** Frames. *)
Inductive Column : Type :=
| Float64 (cells : list float)
| Object (cells : list (option string)).

Record DataFrame : Type := {
  len : nat;
  columns : list (string * Column)
}.

Definition is_numeric_dtype (c : Column) : bool :=
  match c with Float64 _ => true | Object _ => false end.

Definition column_length (c : Column) : nat :=
  match c with Float64 xs => length xs | Object xs => length xs end.

(** [df[column]] for cells of one dtype. *)
Definition series {V : Type} (n : nat) (cells : list V) : Series V :=
  combine (RangeIndex n) cells.

(** [df[mask].index.tolist()]. *)
Definition rows_index (mask : Series bool) : list nat :=
  map fst (filter snd mask).

(** Every column spans the index, and the names are distinct. *)
Definition well_formed (df : DataFrame) : Prop :=
  Forall (fun nc => column_length (snd nc) = len df) (columns df)
  /\ NoDup (map fst (columns df)).

End Pandas.

(** ** The checks *)

Module Checker.
Import Float64 Pandas.

(** What a call does: it returns a value or raises an exception, named by
    its class. *)
Inductive outcome (A : Type) : Type :=
| Returns (a : A)
| Raises (exception : string).

Arguments Returns {A} a.
Arguments Raises {A} exception.

Section Checks.
Context {R : Reduction}.

(** The body of the loop of [check_null], for cells of one dtype. *)
Definition check_null_cells {V : Type} `{Cell V} (df_len : nat)
  (cells : list V) : PyDict.dict pyval :=
  let null_mask := smap isna (series df_len cells) in
  let null_count := mask_sum null_mask in
  let total_count := Z.of_nat df_len in
  let null_ratio := ratio null_count total_count in
  let null_indices := rows_index null_mask in
  [ ("null_count", PInt null_count);
    ("total_count", PInt total_count);
    ("null_ratio", PFloat null_ratio);
    ("null_indices", PList (map (fun i => PInt (Z.of_nat i))
                              (firstn 100 null_indices))) ]%string.

Definition check_null_column (df_len : nat) (c : Column) : PyDict.dict pyval :=
  match c with
  | Float64 cells => check_null_cells df_len cells
  | Object cells => check_null_cells df_len cells
  end.

Definition check_null (df : DataFrame) : PyDict.dict (PyDict.dict pyval) :=
  PyDict.collect fst (fun nc => check_null_column (len df) (snd nc))
    (columns df).

(** The body of the loop of [check_duplicates]. *)
Definition check_duplicates_cells {V : Type} `{Cell V} (df_len : nat)
  (cells : list V) : PyDict.dict pyval :=
  let non_null_series := dropna (series df_len cells) in
  let total_count := Z.of_nat (length non_null_series) in
  let unique_count := nunique non_null_series in
  let duplicate_count := (total_count - unique_count)%Z in
  let duplicate_ratio := ratio duplicate_count total_count in
  let duplicated_values :=
    unique (select non_null_series (duplicated_keep_False non_null_series)) in
  [ ("total_count", PInt total_count);
    ("unique_count", PInt unique_count);
    ("duplicate_count", PInt duplicate_count);
    ("duplicate_ratio", PFloat duplicate_ratio);
    ("duplicated_values", PList (map to_py (firstn 100 duplicated_values))) ]%string.

Definition check_duplicates_column (df_len : nat) (c : Column)
  : PyDict.dict pyval :=
  match c with
  | Float64 cells => check_duplicates_cells df_len cells
  | Object cells => check_duplicates_cells df_len cells
  end.

Definition check_duplicates (df : DataFrame)
  : PyDict.dict (PyDict.dict pyval) :=
  PyDict.collect fst (fun nc => check_duplicates_column (len df) (snd nc))
    (columns df).

Definition note_zero_std : string := "標準偏差が0のため異常値なし".
Definition note_no_data : string := "データなし".
Definition note_not_numeric : string := "数値型ではないためスキップ".

(** The numeric branch of the loop of [check_outliers]. *)
Definition check_outliers_cells (df_len : nat) (cells : list float)
  (threshold : float) : PyDict.dict pyval :=
  let non_null_series := dropna (series df_len cells) in
  if (0 <? length non_null_series)%nat then
    let mean := mean non_null_series in
    let std := std non_null_series in
    if (0 <? std)%float then
      let z_scores :=
        smap (fun v => PrimFloat.abs ((v - mean) / std)%float) non_null_series in
      let outlier_mask := smap (fun z => (threshold <? z)%float) z_scores in
      let outlier_count := mask_sum outlier_mask in
      let outlier_indices := index (select non_null_series outlier_mask) in
      let outlier_ratio := ratio outlier_count (Z.of_nat df_len) in
      [ ("outlier_count", PInt outlier_count);
        ("total_count", PInt (Z.of_nat df_len));
        ("outlier_ratio", PFloat outlier_ratio);
        ("outlier_indices", PList (map (fun i => PInt (Z.of_nat i))
                                     (firstn 100 outlier_indices)));
        ("mean", PFloat mean);
        ("std", PFloat std);
        ("threshold", PFloat threshold) ]%string
    else
      [ ("outlier_count", PInt 0);
        ("total_count", PInt (Z.of_nat df_len));
        ("outlier_ratio", PFloat 0);
        ("outlier_indices", PList []);
        ("mean", PFloat mean);
        ("std", PFloat 0);
        ("threshold", PFloat threshold);
        ("note", PStr note_zero_std) ]%string
  else
    [ ("outlier_count", PInt 0);
      ("total_count", PInt 0);
      ("outlier_ratio", PFloat 0);
      ("outlier_indices", PList []);
      ("note", PStr note_no_data) ]%string.

Definition check_outliers_column (df_len : nat) (c : Column)
  (threshold : float) : PyDict.dict pyval :=
  match c with
  | Float64 cells => check_outliers_cells df_len cells threshold
  | Object _ => [ ("note", PStr note_not_numeric) ]%string
  end.

Definition check_outliers (df : DataFrame) (threshold : float)
  : PyDict.dict (PyDict.dict pyval) :=
  PyDict.collect fst
    (fun nc => check_outliers_column (len df) (snd nc) threshold)
    (columns df).

Definition perform_checks (df : DataFrame) (outlier_threshold : float)
  : PyDict.dict (PyDict.dict (PyDict.dict pyval)) :=
  [ ("null_check", check_null df);
    ("duplicate_check", check_duplicates df);
    ("outlier_check", check_outliers df outlier_threshold) ]%string.

(** The loop of [check_file] over the loaded sheets: [data_dict] is what
    [load_data] returned; writing the JSON file is left out. *)
Definition check_file (data_dict : PyDict.dict DataFrame)
  (outlier_threshold : float)
  : PyDict.dict (PyDict.dict (PyDict.dict (PyDict.dict pyval))) :=
  PyDict.collect fst
    (fun item => perform_checks (snd item) outlier_threshold)
    data_dict.

(** A call of [check_outliers]: the body has no [raise], and what it applies
    to the threshold (a comparison and [float]) raises nothing. *)
Definition call_check_outliers (df : DataFrame) (threshold : float)
  : outcome (PyDict.dict (PyDict.dict pyval)) :=
  Returns (check_outliers df threshold).

End Checks.
End Checker.

(** ** The specification's vocabulary *)

Module Spec.
Import Float64 Pandas.

(** The rows whose cell satisfies [P], in row order. *)
Definition cell_at {V : Type} (P : V -> bool) (cells : list V) (i : nat)
  : bool :=
  match nth_error cells i with Some v => P v | None => false end.

Definition rows_where {V : Type} (P : V -> bool) (cells : list V) : list nat :=
  filter (cell_at P cells) (seq 0 (length cells)).

(** The non-missing values, in row order. *)
Definition present {V : Type} `{Cell V} (cells : list V) : list V :=
  filter (fun v => negb (isna v)) cells.

(** The distinct values in first-occurrence order: an entry stays when no
    earlier entry equals it. *)
Definition first_occurrences {V : Type} `{Cell V} (l : list V) : list V :=
  map snd
    (filter (fun p => negb (existsb (eqv (snd p)) (firstn (fst p) l)))
       (combine (seq 0 (length l)) l)).

(** No two entries at different positions are equal. *)
Definition pairwise_distinct {V : Type} `{Cell V} (l : list V) : Prop :=
  forall i j x y, nth_error l i = Some x -> nth_error l j = Some y ->
    i <> j -> eqv x y = false.

(** A threshold the specification accepts: positive and finite. *)
Definition positive_finite (t : float) : bool :=
  (0 <? t)%float && negb (PrimFloat.is_infinity t).

(** The sample standard deviation, with denominator n - 1; undefined (NaN)
    for fewer than two values. *)
Definition sample_mean {R : Reduction} (xs : list float) : float :=
  (np_sum xs / of_int (Z.of_nat (length xs)))%float.

Definition sample_std {R : Reduction} (xs : list float) : float :=
  if (length xs <? 2)%nat then nan
  else
    PrimFloat.sqrt
      (np_sum (map (fun v => ((sample_mean xs - v) * (sample_mean xs - v))%float) xs)
       / of_int (Z.of_nat (length xs) - 1))%float.

(** The z-score as the specification writes it. *)
Definition z_score (mean std v : float) : float :=
  (PrimFloat.abs (v - mean) / std)%float.

(** A field of one column's entry in a check's result. *)
Definition field {V : Type} (column key : string)
  (result : PyDict.dict (PyDict.dict V)) : option V :=
  match PyDict.get column result with
  | Some entry => PyDict.get key entry
  | None => None
  end.

Definition int_list (l : list nat) : pyval :=
  PList (map (fun i => PInt (Z.of_nat i)) l).

(** The rows of a column whose entry is missing, and the number of its
    entries that are present. *)
Definition missing_rows (c : Column) : list nat :=
  match c with
  | Float64 cells => rows_where isna cells
  | Object cells => rows_where isna cells
  end.

Definition present_count (c : Column) : nat :=
  match c with
  | Float64 cells => length (present cells)
  | Object cells => length (present cells)
  end.

(** The distinct values that occur more than once, in first-occurrence
    order. *)
Definition repeated_values {V : Type} `{Cell V} (cells : list V) : list V :=
  filter (fun v => (2 <=? occurrences v (present cells))%nat)
    (first_occurrences (present cells)).

Definition distinct_count (c : Column) : nat :=
  match c with
  | Float64 cells => length (first_occurrences (present cells))
  | Object cells => length (first_occurrences (present cells))
  end.

Definition repeated (c : Column) : list pyval :=
  match c with
  | Float64 cells => map to_py (repeated_values cells)
  | Object cells => map to_py (repeated_values cells)
  end.

Definition values_pairwise_distinct (c : Column) : Prop :=
  match c with
  | Float64 cells => pairwise_distinct (present cells)
  | Object cells => pairwise_distinct (present cells)
  end.

(** The non-missing values of a numeric column. *)
Definition numeric_present (c : Column) : list float :=
  match c with
  | Float64 cells => present cells
  | Object _ => []
  end.

(** The rows of a numeric column whose value is present and has a z-score
    strictly above the threshold, in row order. *)
Definition flagged_rows {R : Reduction} (cells : list float) (threshold : float)
  : list nat :=
  rows_where
    (fun v => negb (isna v)
              && (threshold <? z_score (sample_mean (present cells))
                                 (sample_std (present cells)) v)%float)
    cells.

End Spec.

(** ** Further vocabulary *)

Module Vocabulary.
Import Pandas Spec.

(** The values of a list that occur in it more than once, in first-occurrence
    order. *)
Definition repeated_in {V : Type} `{Cell V} (l : list V) : list V :=
  filter (fun v => (2 <=? occurrences v l)%nat) (first_occurrences l).

(** A column without its rows of missing entries. *)
Definition without_missing (c : Column) : Column :=
  match c with
  | Float64 cells => Float64 (present cells)
  | Object cells => Object (present cells)
  end.

End Vocabulary.

(** ** Checks that raise *)

(** An object column can hold cells that are present but cannot be hashed,
    such as Python lists; [nunique] raises TypeError on them. The loops
    below are those of the checks, of [perform_checks] and of [check_file]
    over frames that may have such columns. None of them has a [try]: an
    exception leaves the loop, the dict literal and the caller. *)
Module Raising.
Import Float64 Pandas Checker.

Definition list_isna (v : option (list string)) : bool :=
  match v with None => true | Some _ => false end.

Definition list_eqv (v w : option (list string)) : bool :=
  match v, w with
  | Some l, Some l' => if list_eq_dec string_dec l l' then true else false
  | None, None => true
  | _, _ => false
  end.

Definition list_to_py (v : option (list string)) : pyval :=
  match v with Some l => PList (map PStr l) | None => PNone end.

(** Cells that hold lists: they compare by value, but do not hash. *)
#[export] Instance list_cell : Cell (option (list string)) := {
  isna := list_isna;
  eqv := list_eqv;
  to_py := list_to_py
}.

Inductive AnyColumn : Type :=
| Hashable (c : Column)
| Lists (cells : list (option (list string))).

Record AnyFrame : Type := {
  frame_len : nat;
  frame_columns : list (string * AnyColumn)
}.

(** A frame all of whose columns hash. *)
Definition hashable (df : DataFrame) : AnyFrame := {|
  frame_len := len df;
  frame_columns := map (fun nc => (fst nc, Hashable (snd nc))) (columns df)
|}.

Definition hashable_dataset (data_dict : PyDict.dict DataFrame)
  : PyDict.dict AnyFrame :=
  map (fun item => (fst item, hashable (snd item))) data_dict.

(** [for x in xs: result[key x] = val x], where [val x] may raise. *)
Fixpoint loop {A V : Type} (key : A -> string) (val : A -> outcome V)
  (result : PyDict.dict V) (xs : list A) : outcome (PyDict.dict V) :=
  match xs with
  | [] => Returns result
  | x :: xs' =>
      match val x with
      | Returns v => loop key val (PyDict.set (key x) v result) xs'
      | Raises e => Raises e
      end
  end.

Definition collect {A V : Type} (key : A -> string) (val : A -> outcome V)
  (xs : list A) : outcome (PyDict.dict V) :=
  loop key val PyDict.empty xs.

Section Checks.
Context {R : Reduction}.

(** [isna] needs no hashing. *)
Definition check_null_column (df_len : nat) (c : AnyColumn)
  : outcome (PyDict.dict pyval) :=
  match c with
  | Hashable c => Returns (Checker.check_null_column df_len c)
  | Lists cells => Returns (check_null_cells df_len cells)
  end.

(** [nunique] hashes the non-missing values. *)
Definition check_duplicates_column (df_len : nat) (c : AnyColumn)
  : outcome (PyDict.dict pyval) :=
  match c with
  | Hashable c => Returns (Checker.check_duplicates_column df_len c)
  | Lists cells =>
      let non_null_series := dropna (series df_len cells) in
      if (0 <? length non_null_series)%nat then Raises "TypeError"
      else Returns (check_duplicates_cells df_len cells)
  end.

(** A column of lists is not numeric. *)
Definition check_outliers_column (df_len : nat) (c : AnyColumn)
  (threshold : float) : outcome (PyDict.dict pyval) :=
  match c with
  | Hashable c => Returns (Checker.check_outliers_column df_len c threshold)
  | Lists _ => Returns [ ("note", PStr note_not_numeric) ]%string
  end.

Definition check_null (df : AnyFrame)
  : outcome (PyDict.dict (PyDict.dict pyval)) :=
  collect fst (fun nc => check_null_column (frame_len df) (snd nc))
    (frame_columns df).

Definition check_duplicates (df : AnyFrame)
  : outcome (PyDict.dict (PyDict.dict pyval)) :=
  collect fst (fun nc => check_duplicates_column (frame_len df) (snd nc))
    (frame_columns df).

Definition check_outliers (df : AnyFrame) (threshold : float)
  : outcome (PyDict.dict (PyDict.dict pyval)) :=
  collect fst
    (fun nc => check_outliers_column (frame_len df) (snd nc) threshold)
    (frame_columns df).

(** The dict literal evaluates its three values in order. *)
Definition perform_checks (df : AnyFrame) (outlier_threshold : float)
  : outcome (PyDict.dict (PyDict.dict (PyDict.dict pyval))) :=
  match check_null df with
  | Raises e => Raises e
  | Returns null_check =>
      match check_duplicates df with
      | Raises e => Raises e
      | Returns duplicate_check =>
          match check_outliers df outlier_threshold with
          | Raises e => Raises e
          | Returns outlier_check =>
              Returns [ ("null_check", null_check);
                        ("duplicate_check", duplicate_check);
                        ("outlier_check", outlier_check) ]%string
          end
      end
  end.

(** The loop of [check_file] over the sheets. *)
Definition check_file (data_dict : PyDict.dict AnyFrame)
  (outlier_threshold : float)
  : outcome (PyDict.dict (PyDict.dict (PyDict.dict (PyDict.dict pyval)))) :=
  collect fst (fun item => perform_checks (snd item) outlier_threshold)
    data_dict.

End Checks.
End Raising.

(** ** Paths, files and the command line *)

(** The part of [data_checker.py] around the checks: [detect_file_type],
    the loaders, [check_file] with its result file, and the command line.
    Paths follow pathlib's POSIX flavour ([suffix] and [stem] as defined up
    to Python 3.13). What pandas and the file system do is a parameter, the
    [World]; what the program does to them is recorded as a trace. *)
Module Script.
Import Float64 Pandas.
Local Open Scope string_scope.

(** *** str *)

(** [str.lower()]; the upper-case letters of file extensions are ASCII. *)
Definition lower_char (c : ascii) : ascii :=
  let n := nat_of_ascii c in
  if ((65 <=? n) && (n <=? 90))%nat then ascii_of_nat (n + 32) else c.

Fixpoint lower (s : string) : string :=
  match s with
  | EmptyString => EmptyString
  | String c s' => String (lower_char c) (lower s')
  end.

(** [s.split(sep)] for a one-character separator. *)
Fixpoint split (sep : ascii) (s : string) : list string :=
  match s with
  | EmptyString => [EmptyString]
  | String c s' =>
      if Ascii.eqb c sep then EmptyString :: split sep s'
      else match split sep s' with
           | [] => [String c EmptyString]
           | x :: xs => String c x :: xs
           end
  end.

(** [sep.join(l)]. *)
Fixpoint join (sep : string) (l : list string) : string :=
  match l with
  | [] => EmptyString
  | [x] => x
  | x :: l' => x ++ sep ++ join sep l'
  end.

(** [s.rfind(c)], with [None] for -1. *)
Fixpoint rfind (c : ascii) (s : string) : option nat :=
  match s with
  | EmptyString => None
  | String a s' =>
      match rfind c s' with
      | Some i => Some (S i)
      | None => if Ascii.eqb a c then Some 0 else None
      end
  end.

(** [len(s) - len(s.lstrip(c))]. *)
Fixpoint leading (c : ascii) (s : string) : nat :=
  match s with
  | String a s' => if Ascii.eqb a c then S (leading c s') else 0
  | EmptyString => 0
  end.

(** *** pathlib *)

Record PurePath : Type := {
  root : string;
  parts : list string
}.

(** A component that the parser keeps. *)
Definition kept (x : string) : bool :=
  negb (String.eqb x "") && negb (String.eqb x ".").

(** [Path(s)]: the root is "/" for leading slashes, "//" for exactly two;
    empty components and "." are dropped. *)
Definition Path (s : string) : PurePath := {|
  root := match leading "/" s with
          | 0 => ""
          | 2 => "//"
          | _ => "/"
          end;
  parts := filter kept (split "/" s)
|}.

Definition name (p : PurePath) : string := last (parts p) "".

Definition suffix (p : PurePath) : string :=
  let name := name p in
  match rfind "." name with
  | Some i =>
      if ((0 <? i) && (i <? String.length name - 1))%nat
      then substring i (String.length name - i) name
      else ""
  | None => ""
  end.

Definition stem (p : PurePath) : string :=
  let name := name p in
  match rfind "." name with
  | Some i =>
      if ((0 <? i) && (i <? String.length name - 1))%nat
      then substring 0 i name
      else name
  | None => name
  end.

Definition parent (p : PurePath) : PurePath :=
  {| root := root p; parts := removelast (parts p) |}.

(** [p / s]. *)
Definition joinpath (p : PurePath) (s : string) : PurePath :=
  let q := Path s in
  if String.eqb (root q) "" then
    {| root := root p; parts := (parts p ++ parts q)%list |}
  else q.

(** [str(p)]. *)
Definition str (p : PurePath) : string :=
  match root p, parts p with
  | EmptyString, [] => "."
  | r, l => r ++ join "/" l
  end.

(** *** Exceptions, the world and traces *)

Record exception : Type := {
  exc_type : string;
  exc_message : string
}.

Definition ValueError (message : string) : exception :=
  {| exc_type := "ValueError"; exc_message := message |}.

Inductive result (A : Type) : Type :=
| Ok (a : A)
| Err (e : exception).

Arguments Ok {A} a.
Arguments Err {A} e.

Definition Report : Type :=
  PyDict.dict (PyDict.dict (PyDict.dict (PyDict.dict pyval))).

(** What the program asks of pandas, the file system, standard output and
    [float]. [open_for_writing] is [open(path, 'w')], which creates the
    file; [json_dump] is the body of the [with] block and its closing of the
    file; [announce] is the [print] that ends [check_file]. Each of them may
    raise. *)
Record World : Type := {
  read_csv : string -> result DataFrame;
  ExcelFile_sheet_names : string -> result (list string);
  read_excel : string -> string -> result DataFrame;
  open_for_writing : string -> result unit;
  json_dump : string -> Report -> result unit;
  announce : string -> result unit;
  float_of_str : string -> result float
}.

(** What the program does, in order. [Created] is a file opened for
    writing; [Wrote] is its document written to the end and the file
    closed. *)
Inductive event : Type :=
| ReadCsv (filepath : string)
| OpenedExcel (filepath : string)
| ReadSheet (filepath sheet_name : string)
| Created (filepath : string)
| Wrote (filepath : string) (document : Report)
| Printed (line : string)
| Traceback (e : exception).


(** A computation: its result, or the exception it raised, and its trace. *)
Definition IO (A : Type) : Type := result A * list event.

Definition ret {A : Type} (a : A) : IO A := (Ok a, []).

Definition raise {A : Type} (e : exception) : IO A := (Err e, []).

Definition bind {A B : Type} (m : IO A) (k : A -> IO B) : IO B :=
  match m with
  | (Ok a, trace) => let (r, trace') := k a in (r, (trace ++ trace')%list)
  | (Err e, trace) => (Err e, trace)
  end.

Definition emit (e : event) : IO unit := (Ok tt, [e]).

(** A call into the world, recorded before its result is known. *)
Definition call {A : Type} (e : event) (r : result A) : IO A := (r, [e]).

Definition lift {A : Type} (r : result A) : IO A := (r, []).

Notation "x <- m ;; k" := (bind m (fun x => k))
  (at level 61, m at next level, right associativity).

Notation "m ;;; k" := (bind m (fun _ => k))
  (at level 61, right associativity).

Section Program.
Context {R : Reduction} (world : World).

Definition detect_file_type (filepath : string) : result string :=
  let ext := lower (suffix (Path filepath)) in
  if String.eqb ext ".csv" then Ok "csv"
  else if String.eqb ext ".xlsx" || String.eqb ext ".xls" then Ok "excel"
  else Err (ValueError ("サポートされていないファイルタイプ: " ++ ext)).

Definition load_csv_data (filepath : string) : IO (PyDict.dict DataFrame) :=
  let filename := stem (Path filepath) in
  df <- call (ReadCsv filepath) (read_csv world filepath) ;;
  ret [(filename, df)].

(** The loop of [load_excel_data] over the sheet names. *)
Fixpoint load_sheets (filepath : string) (sheet_names : list string)
  (data_dict : PyDict.dict DataFrame) : IO (PyDict.dict DataFrame) :=
  match sheet_names with
  | [] => ret data_dict
  | sheet_name :: rest =>
      df <- call (ReadSheet filepath sheet_name)
              (read_excel world filepath sheet_name) ;;
      load_sheets filepath rest (PyDict.set sheet_name df data_dict)
  end.

Definition load_excel_data (filepath : string) : IO (PyDict.dict DataFrame) :=
  sheet_names <- call (OpenedExcel filepath)
                   (ExcelFile_sheet_names world filepath) ;;
  load_sheets filepath sheet_names PyDict.empty.

Definition load_data (filepath : string) : IO (PyDict.dict DataFrame) :=
  file_type <- lift (detect_file_type filepath) ;;
  if String.eqb file_type "csv" then load_csv_data filepath
  else load_excel_data filepath.

(** The path of the result file when none is given. *)
Definition default_output (filepath : string) : string :=
  let input_path := Path filepath in
  str (joinpath (parent input_path) (stem input_path ++ "_check_result.json")).

Definition check_file (filepath : string) (output_filepath : option string)
  (outlier_threshold : float) : IO Report :=
  data_dict <- load_data filepath ;;
  let results := Checker.check_file data_dict outlier_threshold in
  let output_filepath :=
    match output_filepath with
    | Some given => given
    | None => default_output filepath
    end in
  let line := "チェック結果を " ++ output_filepath ++ " に出力しました。" in
  lift (open_for_writing world output_filepath) ;;;
  emit (Created output_filepath) ;;;
  lift (json_dump world output_filepath results) ;;;
  emit (Wrote output_filepath results) ;;;
  lift (announce world line) ;;;
  emit (Printed line) ;;;
  ret results.



End Program.
End Script.

(** ** Example frames *)

Module Examples.
Import Pandas.

(** A numeric column with a repeated value and a missing one, and a text
    column. *)
Definition readings : DataFrame := {|
  len := 5;
  columns := [ ("value", Float64 [1; 2; 2; 3; nan]%float);
               ("label", Object [Some "x"; None; Some "x"; Some "y"; None]) ]%string
|}.

(** One value far from the others. *)
Definition scores : DataFrame := {|
  len := 5;
  columns := [ ("score", Float64 [10; 10; 10; 10; 1000]%float) ]%string
|}.

(** Three identical values. *)
Definition constant : DataFrame := {|
  len := 3;
  columns := [ ("x", Float64 [0.1; 0.1; 0.1]%float) ]%string
|}.

(** One row, whose only cell is missing. *)
Definition blank : DataFrame := {|
  len := 1;
  columns := [ ("x", Float64 [nan]%float) ]%string
|}.

(** A workbook of two sheets. *)
Definition workbook : PyDict.dict DataFrame :=
  [ ("readings", readings); ("scores", scores) ]%string.

End Examples.

(** ** An example disk *)

Module Disk.
Import Pandas Script Examples.
Local Open Scope string_scope.

Definition FileNotFoundError (filepath : string) : exception :=
  {| exc_type := "FileNotFoundError";
     exc_message := "[Errno 2] No such file or directory: '" ++ filepath ++ "'" |}.

(** A CSV file, a workbook of two sheets, and a workbook whose second sheet
    cannot be read. *)
Definition disk : World := {|
  read_csv := fun filepath =>
    if String.eqb filepath "data/readings.CSV" then Ok readings
    else Err (FileNotFoundError filepath);
  ExcelFile_sheet_names := fun filepath =>
    if String.eqb filepath "book.xlsx" then Ok ["readings"; "scores"]
    else if String.eqb filepath "damaged.xls"
    then Ok ["readings"; "broken"; "scores"]
    else Err (FileNotFoundError filepath);
  read_excel := fun filepath sheet_name =>
    if String.eqb sheet_name "readings" then Ok readings
    else if String.eqb sheet_name "scores" then Ok scores
    else Err (ValueError ("Worksheet named '" ++ sheet_name ++ "' not found"));
  open_for_writing := fun _ => Ok tt;
  json_dump := fun _ _ => Ok tt;
  announce := fun _ => Ok tt;
  float_of_str := fun s =>
    if String.eqb s "2.5" then Ok 2.5%float
    else Err (ValueError ("could not convert string to float: '" ++ s ++ "'"))
|}.

(** The frame of each sheet of the workbooks. *)
Definition sheet (sheet_name : string) : DataFrame :=
  if String.eqb sheet_name "readings" then readings else scores.

(** A column of 101 missing cells and one value. *)
Definition gaps : DataFrame := {|
  len := 102;
  columns := [ ("x", Float64 (repeat nan 101 ++ [1%float])%list) ]
|}.

End Disk.

(** ** Example frames with lists *)

Module Tagged.
Import Pandas Raising Examples.
Local Open Scope string_scope.

(** Two rows with an id and a list of tags. *)
Definition tagged : AnyFrame := {|
  frame_len := 2;
  frame_columns := [ ("id", Hashable (Float64 [1; 2]%float));
                     ("tags", Lists [Some ["a"]; Some ["b"; "c"]]) ]
|}.

(** The workbook with a sheet of tagged rows in front. *)
Definition tagged_workbook : PyDict.dict AnyFrame :=
  ("tagged", tagged) :: hashable_dataset workbook.

End Tagged.

(** * Properties *)

(** ** Dicts *)

Module PyDictFacts.
Import PyDict.

Section Facts.
Context {V : Type}.
Implicit Types (d : dict V) (k : string) (v : V).

Lemma get_set_same k v d : get k (set k v d) = Some v.
Proof.
  induction d as [|[k' v'] d IH]; simpl.
  - now rewrite String.eqb_refl.
  - destruct (String.eqb k k') eqn:E; simpl; rewrite ?String.eqb_refl, ?E; auto.
Qed.

Lemma get_set_other k k' v d : k <> k' -> get k (set k' v d) = get k d.
Proof.
  intros Hk. apply String.eqb_neq in Hk.
  induction d as [|[k'' v''] d IH]; simpl.
  - now rewrite Hk.
  - destruct (String.eqb k' k'') eqn:E; simpl.
    + apply String.eqb_eq in E; subst k''. now rewrite Hk.
    + now rewrite IH.
Qed.

Lemma set_fresh k v d : ~ In k (keys d) -> set k v d = d ++ [(k, v)].
Proof.
  induction d as [|[k' v'] d IH]; simpl; intros Hk; [reflexivity|].
  destruct (String.eqb k k') eqn:E.
  - apply String.eqb_eq in E. subst k'. tauto.
  - f_equal. apply IH. tauto.
Qed.

Lemma keys_set k k' v d : In k (keys (set k' v d)) <-> k = k' \/ In k (keys d).
Proof.
  induction d as [|[k'' v''] d IH]; simpl.
  - intuition congruence.
  - destruct (String.eqb k' k'') eqn:E; simpl.
    + apply String.eqb_eq in E; subst k''. intuition congruence.
    + rewrite IH. intuition congruence.
Qed.

End Facts.

Section Collect.
Context {A V : Type} (key : A -> string) (val : A -> V).

Lemma keys_loop xs : forall d k,
  In k (keys (loop key val d xs)) <-> In k (keys d) \/ In k (map key xs).
Proof.
  unfold loop. induction xs as [|x xs IH]; simpl; intros d k.
  - tauto.
  - rewrite IH, keys_set. intuition.
Qed.

Lemma loop_NoDup xs : forall d,
  NoDup (map key xs) -> (forall x, In x xs -> ~ In (key x) (keys d)) ->
  loop key val d xs = d ++ map (fun x => (key x, val x)) xs.
Proof.
  unfold loop. induction xs as [|x xs IH]; simpl; intros d Hnd Hd.
  - now rewrite app_nil_r.
  - inversion Hnd as [|? ? Hx Hnd']; subst.
    rewrite set_fresh by (apply Hd; auto).
    rewrite IH; auto.
    + now rewrite <- app_assoc.
    + intros y Hy. unfold keys. rewrite map_app, in_app_iff. simpl.
      intros [H|[H|[]]].
      * apply (Hd y); auto.
      * apply Hx. rewrite H. now apply in_map.
Qed.

Lemma keys_collect xs k : In k (keys (collect key val xs)) <-> In k (map key xs).
Proof.
  unfold collect. rewrite keys_loop. simpl. tauto.
Qed.

Lemma collect_NoDup xs :
  NoDup (map key xs) -> collect key val xs = map (fun x => (key x, val x)) xs.
Proof.
  intros Hnd. unfold collect. rewrite loop_NoDup; auto.
Qed.

Lemma keys_collect_NoDup xs :
  NoDup (map key xs) -> keys (collect key val xs) = map key xs.
Proof.
  intros Hnd. rewrite collect_NoDup by assumption.
  unfold keys. rewrite map_map. reflexivity.
Qed.

Lemma get_collect xs x :
  NoDup (map key xs) -> In x xs -> get (key x) (collect key val xs) = Some (val x).
Proof.
  intros Hnd Hx. rewrite collect_NoDup by assumption.
  induction xs as [|y xs IH]; simpl in *; [tauto|].
  inversion Hnd as [|? ? Hy Hnd']; subst.
  destruct Hx as [->|Hx].
  - now rewrite String.eqb_refl.
  - destruct (String.eqb (key x) (key y)) eqn:E.
    + apply String.eqb_eq in E. exfalso. apply Hy. rewrite <- E. now apply in_map.
    + auto.
Qed.

Lemma get_collect_some xs k :
  In k (map key xs) -> get k (collect key val xs) <> None.
Proof.
  intros Hk. apply keys_collect in Hk. revert Hk.
  generalize (collect key val xs). intros d.
  induction d as [|[k' v'] d IH]; simpl; [tauto|].
  intros [<-|Hk]; [now rewrite String.eqb_refl|].
  destruct (String.eqb k k'); [discriminate|auto].
Qed.

End Collect.

Lemma In_set_inv {V : Type} (k k' : string) (v v' : V) (d : dict V) :
  In (k, v) (set k' v' d) -> (k = k' /\ v = v') \/ In (k, v) d.
Proof.
  induction d as [|[k'' v''] d IH]; simpl.
  - intros [E|[]]. injection E as <- <-. auto.
  - destruct (String.eqb k' k''); simpl.
    + intros [E|Hin]; [injection E as <- <-; auto | auto].
    + intros [E|Hin]; [auto|]. destruct (IH Hin); auto.
Qed.

(** Every entry of a collected dict was written by the loop. *)
Lemma In_collect_inv {A V : Type} (key : A -> string) (val : A -> V)
  (xs : list A) (k : string) (v : V) :
  In (k, v) (collect key val xs) -> exists x, In x xs /\ key x = k /\ val x = v.
Proof.
  unfold collect, loop.
  assert (G : forall d, In (k, v) (fold_left (fun r x => set (key x) (val x) r) xs d) ->
              In (k, v) d \/ exists x, In x xs /\ key x = k /\ val x = v).
  { induction xs as [|x xs IH]; simpl; intros d Hin; [auto|].
    destruct (IH _ Hin) as [Hd|(y & Hy & Hk & Hv)].
    - apply In_set_inv in Hd. destruct Hd as [[-> ->]|Hd]; [|auto].
      right. exists x. auto.
    - right. exists y. auto. }
  intros Hin. destruct (G _ Hin) as [[]|Hex]. exact Hex.
Qed.

(** The loops of the checks: items are pairs, keyed by their name. *)
Lemma get_collect_items {A V : Type} (f : A -> V) (xs : list (string * A))
  (k : string) (a : A) :
  NoDup (map fst xs) -> In (k, a) xs ->
  get k (collect fst (fun x => f (snd x)) xs) = Some (f a).
Proof.
  intros Hnd Hin.
  apply (get_collect fst (fun x => f (snd x)) xs (k, a) Hnd Hin).
Qed.

End PyDictFacts.

(** ** float64 comparisons and division *)

Module Float64Facts.

Ltac cmp_cases :=
  repeat match goal with
  | |- context [Z.compare ?a ?b] => destruct (Z.compare_spec a b)
  | H : context [Z.compare ?a ?b] |- _ => destruct (Z.compare_spec a b)
  | |- context [PosDef.Pos.compare_cont Eq ?a ?b] =>
      change (PosDef.Pos.compare_cont Eq a b) with (Pos.compare a b);
      destruct (Pos.compare_spec a b)
  | H : context [PosDef.Pos.compare_cont Eq ?a ?b] |- _ =>
      change (PosDef.Pos.compare_cont Eq a b) with (Pos.compare a b) in H;
      destruct (Pos.compare_spec a b)
  end.

Ltac sf_cases :=
  intros;
  repeat match goal with x : spec_float |- _ => destruct x end;
  repeat match goal with b : bool |- _ => destruct b end;
  simpl in *; try congruence;
  cmp_cases; simpl in *; subst; try congruence; try lia.

Lemma SFcompare_Eq_sym a b : SFcompare a b = Some Eq -> SFcompare b a = Some Eq.
Proof. sf_cases. Qed.

Lemma SFcompare_Eq_trans a b c :
  SFcompare a b = Some Eq -> SFcompare b c = Some Eq -> SFcompare a c = Some Eq.
Proof. sf_cases. Qed.

Lemma SFcompare_Lt_trans a b c :
  SFcompare a b = Some Lt -> SFcompare b c = Some Lt -> SFcompare a c = Some Lt.
Proof. sf_cases. Qed.

Lemma SFcompare_Eq_Lt a b c :
  SFcompare a b = Some Eq -> SFcompare b c = Some Lt -> SFcompare a c = Some Lt.
Proof. sf_cases. Qed.

Lemma eqb_compare x y :
  (x =? y)%float = true <-> SFcompare (Prim2SF x) (Prim2SF y) = Some Eq.
Proof.
  rewrite FloatAxioms.eqb_spec. unfold SFeqb.
  destruct (SFcompare (Prim2SF x) (Prim2SF y)) as [[| |]|];
    split; congruence.
Qed.

Lemma ltb_compare x y :
  (x <? y)%float = true <-> SFcompare (Prim2SF x) (Prim2SF y) = Some Lt.
Proof.
  rewrite FloatAxioms.ltb_spec. unfold SFltb.
  destruct (SFcompare (Prim2SF x) (Prim2SF y)) as [[| |]|];
    split; congruence.
Qed.

Lemma leb_compare x y :
  (x <=? y)%float = true <->
  SFcompare (Prim2SF x) (Prim2SF y) = Some Lt
  \/ SFcompare (Prim2SF x) (Prim2SF y) = Some Eq.
Proof.
  rewrite FloatAxioms.leb_spec. unfold SFleb.
  destruct (SFcompare (Prim2SF x) (Prim2SF y)) as [[| |]|];
    split; intros; try tauto; try congruence;
    match goal with H : _ \/ _ |- _ => destruct H; congruence end.
Qed.

Lemma eqb_sym x y : (x =? y)%float = true -> (y =? x)%float = true.
Proof. rewrite !eqb_compare. apply SFcompare_Eq_sym. Qed.

Lemma eqb_trans x y z :
  (x =? y)%float = true -> (y =? z)%float = true -> (x =? z)%float = true.
Proof. rewrite !eqb_compare. apply SFcompare_Eq_trans. Qed.

Lemma eqb_refl x : PrimFloat.is_nan x = false -> (x =? x)%float = true.
Proof. unfold PrimFloat.is_nan. now destruct (x =? x)%float. Qed.

Lemma SFcompare_irrefl a : SFcompare a a <> Some Lt.
Proof. sf_cases. Qed.

Lemma ltb_irrefl x : (x <? x)%float = false.
Proof.
  destruct (x <? x)%float eqn:E; [|reflexivity].
  apply ltb_compare in E. now apply SFcompare_irrefl in E.
Qed.

(** A value above the larger threshold is above the smaller one. *)
Lemma leb_ltb_trans t1 t2 z :
  (t1 <=? t2)%float = true -> (t2 <? z)%float = true -> (t1 <? z)%float = true.
Proof.
  rewrite leb_compare, !ltb_compare. intros [H|H] Hz.
  - eapply SFcompare_Lt_trans; eassumption.
  - eapply SFcompare_Eq_Lt; eassumption.
Qed.

Lemma SFabs_round_aux prec emax s m e l :
  SFabs (binary_round_aux prec emax s m e l)
  = binary_round_aux prec emax false m e l.
Proof.
  unfold binary_round_aux.
  destruct (shr_fexp prec emax m e l) as [mrs' e'].
  destruct (shr_fexp prec emax _ e' loc_Exact) as [mrs'' e''].
  destruct (shr_m mrs''); try reflexivity.
  destruct (Z.leb e'' (Z.sub emax prec)); reflexivity.
Qed.

Lemma SFabs_div_pos prec emax x y :
  SFltb (S754_zero false) y = true ->
  SFabs (SFdiv prec emax x y) = SFdiv prec emax (SFabs x) y.
Proof.
  intros Hy.
  destruct y as [sy|sy| |sy my ey]; try discriminate;
    destruct sy; try discriminate;
    destruct x as [sx|sx| |sx mx ex]; try reflexivity; simpl;
    try (destruct sx; reflexivity).
  destruct (SFdiv_core_binary prec emax (Z.pos mx) ex (Z.pos my) ey)
    as [[mz ez] lz].
  rewrite xorb_false_r. apply SFabs_round_aux.
Qed.

(** Dividing by a positive value commutes with the absolute value: the
    rounding does not look at the sign. *)
Lemma abs_div_pos x s :
  (0 <? s)%float = true -> PrimFloat.abs (x / s) = (PrimFloat.abs x / s)%float.
Proof.
  intros Hs. apply Prim2SF_inj.
  rewrite abs_spec, !div_spec, abs_spec.
  apply SFabs_div_pos. rewrite FloatAxioms.ltb_spec in Hs. exact Hs.
Qed.

End Float64Facts.

(** ** Series *)

Module PandasFacts.
Import Float64 Pandas Spec.

#[export] Instance float64_laws : CellLaws float.
Proof.
  split.
  - exact Float64Facts.eqb_refl.
  - exact Float64Facts.eqb_sym.
  - exact Float64Facts.eqb_trans.
Qed.

#[export] Instance object_laws : CellLaws (option string).
Proof.
  split.
  - intros [x|]; simpl; [intros _; apply String.eqb_refl | discriminate].
  - intros [x|] [y|]; simpl; try congruence. now rewrite String.eqb_sym.
  - intros [x|] [y|] [z|]; simpl; try congruence.
    rewrite !String.eqb_eq. congruence.
Qed.

Section Masks.
Context {V : Type}.
Implicit Types (s : Series V) (cells : list V).

Lemma smap_smap {W X : Type} (f : V -> W) (g : W -> X) s :
  smap g (smap f s) = smap (fun v => g (f v)) s.
Proof. unfold smap. rewrite map_map. reflexivity. Qed.

Lemma filter_smap (f : V -> bool) s :
  filter snd (smap f s) = smap f (filter (fun p => f (snd p)) s).
Proof.
  unfold smap. induction s as [|[i v] s IH]; simpl; [reflexivity|].
  destruct (f v) eqn:E; simpl; rewrite ?E, IH; reflexivity.
Qed.

Lemma index_smap {W : Type} (f : V -> W) s : index (smap f s) = index s.
Proof. unfold index, smap. rewrite map_map. reflexivity. Qed.

Lemma rows_index_smap (f : V -> bool) s :
  rows_index (smap f s) = index (filter (fun p => f (snd p)) s).
Proof.
  unfold rows_index. rewrite filter_smap. apply (index_smap f).
Qed.

Lemma mask_sum_smap (f : V -> bool) s :
  mask_sum (smap f s) = Z.of_nat (length (filter (fun p => f (snd p)) s)).
Proof.
  unfold mask_sum. rewrite filter_smap. unfold smap.
  now rewrite length_map.
Qed.

Lemma select_smap (f : V -> bool) s :
  select s (smap f s) = filter (fun p => f (snd p)) s.
Proof.
  unfold select, smap. induction s as [|[i v] s IH]; simpl; [reflexivity|].
  destruct (f v) eqn:E; simpl; rewrite IH; reflexivity.
Qed.

Lemma index_filter_combine (P : V -> bool) cells : forall a,
  map fst (filter (fun p => P (snd p)) (combine (seq a (length cells)) cells))
  = filter (fun i => cell_at P cells (i - a)) (seq a (length cells)).
Proof.
  induction cells as [|x cells IH]; intros a; simpl; [reflexivity|].
  rewrite Nat.sub_diag. unfold cell_at at 1. simpl.
  assert (E : filter (fun i => cell_at P (x :: cells) (i - a))
                (seq (S a) (length cells))
              = filter (fun i => cell_at P cells (i - S a))
                  (seq (S a) (length cells))).
  { apply filter_ext_in. intros i Hi. apply in_seq in Hi.
    replace (i - a) with (S (i - S a)) by lia. reflexivity. }
  rewrite E, <- IH. now destruct (P x).
Qed.

Lemma index_filter_series (P : V -> bool) cells :
  index (filter (fun p => P (snd p)) (series (length cells) cells))
  = rows_where P cells.
Proof.
  unfold index, series, RangeIndex, rows_where.
  rewrite index_filter_combine. apply filter_ext. intros i.
  now rewrite Nat.sub_0_r.
Qed.

Lemma values_filter_combine {I : Type} (P : V -> bool) cells :
  forall idx : list I, length idx = length cells ->
  map snd (filter (fun p => P (snd p)) (combine idx cells)) = filter P cells.
Proof.
  induction cells as [|x cells IH]; intros [|i idx] Hlen; simpl in *;
    try reflexivity; try discriminate.
  destruct (P x); simpl; rewrite IH by lia; reflexivity.
Qed.

Lemma values_filter_series (P : V -> bool) cells :
  values (filter (fun p => P (snd p)) (series (length cells) cells))
  = filter P cells.
Proof.
  unfold values, series, RangeIndex. apply values_filter_combine.
  apply length_seq.
Qed.

Lemma length_rows_where (P : V -> bool) cells :
  length (rows_where P cells) = length (filter P cells).
Proof.
  rewrite <- index_filter_series, <- values_filter_series.
  unfold index, values. now rewrite !length_map.
Qed.

Lemma filter_filter (P Q : V -> bool) (l : list V) :
  filter Q (filter P l) = filter (fun v => P v && Q v) l.
Proof.
  induction l as [|x l IH]; simpl; [reflexivity|].
  destruct (P x); simpl; [destruct (Q x)|]; now rewrite IH.
Qed.

End Masks.

Section Dropna.
Context {V : Type} `{Cell V}.

Lemma dropna_idem (s : Series V) : dropna (dropna s) = dropna s.
Proof.
  unfold dropna. induction s as [|x s IH]; simpl; [reflexivity|].
  destruct (negb (isna (snd x))) eqn:E; simpl; rewrite ?E, IH; reflexivity.
Qed.

Lemma values_dropna (cells : list V) :
  values (dropna (series (length cells) cells)) = present cells.
Proof.
  unfold dropna, present.
  apply (values_filter_series (fun v => negb (isna v))).
Qed.

Lemma length_dropna (cells : list V) :
  length (dropna (series (length cells) cells)) = length (present cells).
Proof. rewrite <- values_dropna. unfold values. now rewrite length_map. Qed.

End Dropna.
End PandasFacts.

(** ** The null check *)

Module NullCheck.
Import Float64 Pandas Spec Checker PandasFacts.

Lemma ratio_cases (a b : nat) :
  ratio (Z.of_nat a) (Z.of_nat b)
  = if (b =? 0)%nat then 0%float
    else (of_int (Z.of_nat a) / of_int (Z.of_nat b))%float.
Proof.
  unfold ratio. destruct b as [|b]; simpl; reflexivity.
Qed.

Lemma check_null_cells_rows {V : Type} `{Cell V} (cells : list V) :
  check_null_cells (length cells) cells
  = [ ("null_count", PInt (Z.of_nat (length (rows_where isna cells))));
      ("total_count", PInt (Z.of_nat (length cells)));
      ("null_ratio",
       PFloat (if (length cells =? 0)%nat then 0%float
               else (of_int (Z.of_nat (length (rows_where isna cells)))
                     / of_int (Z.of_nat (length cells)))%float));
      ("null_indices", int_list (firstn 100 (rows_where isna cells))) ]%string.
Proof.
  unfold check_null_cells, int_list.
  rewrite mask_sum_smap, rows_index_smap, index_filter_series.
  rewrite <- ratio_cases.
  replace (length (filter (fun p => isna (snd p)) (series (length cells) cells)))
    with (length (rows_where isna cells)); [reflexivity|].
  rewrite <- index_filter_series. unfold index. now rewrite length_map.
Qed.

Lemma missing_plus_present {V : Type} `{Cell V} (cells : list V) :
  length (rows_where isna cells) + length (present cells) = length cells.
Proof.
  rewrite length_rows_where. unfold present. apply filter_length.
Qed.

End NullCheck.

(** ** The duplicate check *)

Module DuplicateCheck.
Import Float64 Pandas Spec Checker PandasFacts.

Section Values.
Context {V : Type} `{CellLaws V}.
Implicit Types (x y z : V) (l table : list V).

Lemma eqv_respects x y z : eqv x y = true -> eqv x z = eqv y z.
Proof.
  intros Hxy. destruct (eqv y z) eqn:Hyz.
  - eapply eqv_trans; eassumption.
  - destruct (eqv x z) eqn:Hxz; [|reflexivity].
    rewrite <- Hyz. symmetry. eapply eqv_trans; [|eassumption].
    now apply eqv_sym.
Qed.

Lemma existsb_respects x y l :
  eqv x y = true -> existsb (eqv x) l = existsb (eqv y) l.
Proof.
  intros Hxy. induction l as [|z l IH]; simpl; [reflexivity|].
  now rewrite IH, (eqv_respects x y z Hxy).
Qed.

Lemma occurrences_respects x y l :
  eqv x y = true -> occurrences x l = occurrences y l.
Proof.
  intros Hxy. unfold occurrences. f_equal. apply filter_ext.
  intros z. now apply eqv_respects.
Qed.

(** Filtering by a property of the value commutes with [unique]. *)
Lemma existsb_filter (p : V -> bool) x table :
  (forall y, eqv x y = true -> p y = true) ->
  existsb (eqv x) (filter p table) = existsb (eqv x) table.
Proof.
  intros Hp. induction table as [|y table IH]; simpl; [reflexivity|].
  destruct (p y) eqn:Hy; simpl; rewrite IH; [reflexivity|].
  destruct (eqv x y) eqn:E; [|reflexivity].
  rewrite (Hp y E) in Hy. discriminate.
Qed.

Lemma unique_from_filter (p : V -> bool) :
  (forall x y, eqv x y = true -> p x = p y) ->
  forall l table,
  unique_from (filter p table) (filter p l) = filter p (unique_from table l).
Proof.
  intros Hp. induction l as [|x l IH]; intros table; simpl; [reflexivity|].
  destruct (p x) eqn:Hx; simpl.
  - rewrite existsb_filter
      by (intros y Hy; rewrite <- (Hp x y Hy); exact Hx).
    destruct (existsb (eqv x) table); simpl.
    + apply IH.
    + rewrite Hx. f_equal. rewrite <- IH. simpl. now rewrite Hx.
  - destruct (existsb (eqv x) table); simpl.
    + apply IH.
    + rewrite Hx, <- IH. simpl. now rewrite Hx.
Qed.

Lemma unique_filter (p : V -> bool) l :
  (forall x y, eqv x y = true -> p x = p y) ->
  unique_from [] (filter p l) = filter p (unique_from [] l).
Proof. intros Hp. apply (unique_from_filter p Hp l []). Qed.

Lemma unique_from_positions l : forall table pre a,
  (forall y, existsb (eqv y) table = existsb (eqv y) pre) ->
  unique_from table l
  = map snd
      (filter (fun p => negb (existsb (eqv (snd p)) (pre ++ firstn (fst p - a) l)))
         (combine (seq a (length l)) l)).
Proof.
  induction l as [|x l IH]; intros table pre a Hpre; simpl; [reflexivity|].
  rewrite Nat.sub_diag. simpl. rewrite app_nil_r, <- Hpre.
  assert (E : forall pre',
    pre' = pre ++ [x] ->
    filter (fun p => negb (existsb (eqv (snd p))
                             (pre ++ firstn (fst p - a) (x :: l))))
      (combine (seq (S a) (length l)) l)
    = filter (fun p => negb (existsb (eqv (snd p))
                               (pre' ++ firstn (fst p - S a) l)))
        (combine (seq (S a) (length l)) l)).
  { intros pre' ->. apply filter_ext_in. intros [i v] Hi.
    apply in_combine_l in Hi. apply in_seq in Hi. simpl.
    replace (i - a) with (S (i - S a)) by lia. simpl.
    now rewrite <- app_assoc. }
  rewrite (E _ eq_refl).
  destruct (existsb (eqv x) table) eqn:Hx; simpl.
  - apply IH. intros y. rewrite existsb_app, <- Hpre. simpl.
    destruct (eqv y x) eqn:Hyx; [|now rewrite orb_false_r].
    rewrite (existsb_respects y x table Hyx), Hx. reflexivity.
  - f_equal. apply IH. intros y. rewrite existsb_app, <- Hpre. simpl.
    now rewrite orb_false_r, orb_comm.
Qed.

Lemma unique_from_first_occurrences l :
  unique_from [] l = first_occurrences l.
Proof.
  unfold first_occurrences. rewrite (unique_from_positions l [] [] 0).
  - f_equal. apply filter_ext. intros p. simpl. now rewrite Nat.sub_0_r.
  - reflexivity.
Qed.

Lemma length_unique_from l : forall table,
  length (unique_from table l) <= length l.
Proof.
  induction l as [|x l IH]; intros table; simpl; [lia|].
  destruct (existsb (eqv x) table); simpl.
  - specialize (IH table). lia.
  - specialize (IH (x :: table)). lia.
Qed.

Lemma combine_seq_nth_error l : forall a i x,
  In (i, x) (combine (seq a (length l)) l) -> nth_error l (i - a) = Some x /\ a <= i.
Proof.
  induction l as [|y l IH]; intros a i x; simpl; [tauto|].
  intros [E|Hin].
  - injection E as -> ->. rewrite Nat.sub_diag. auto.
  - apply IH in Hin. destruct Hin as [Hn Hle].
    replace (i - a) with (S (i - S a)) by lia. simpl. split; [exact Hn|lia].
Qed.

Lemma pairwise_distinct_first_occurrences l :
  pairwise_distinct l -> first_occurrences l = l.
Proof.
  intros Hpd. unfold first_occurrences.
  rewrite forallb_filter_id.
  - clear Hpd. generalize 0. induction l as [|x l IH]; intros a; simpl;
      [reflexivity|]. now rewrite IH.
  - apply forallb_forall. intros [i x] Hin. simpl.
    apply combine_seq_nth_error in Hin. destruct Hin as [Hi _].
    rewrite Nat.sub_0_r in Hi.
    destruct (existsb (eqv x) (firstn i l)) eqn:E; [|reflexivity].
    apply existsb_exists in E. destruct E as (y & Hy & Hxy).
    apply In_nth_error in Hy. destruct Hy as [j Hj].
    rewrite nth_error_firstn in Hj.
    destruct (Nat.ltb j i) eqn:Hji; [|discriminate].
    apply Nat.ltb_lt in Hji.
    rewrite (Hpd i j x y Hi Hj) in Hxy by lia. discriminate.
Qed.

Lemma values_filter (P : V -> bool) (s : Series V) :
  values (filter (fun p => P (snd p)) s) = filter P (values s).
Proof.
  unfold values. induction s as [|[i v] s IH]; simpl; [reflexivity|].
  destruct (P v); simpl; now rewrite IH.
Qed.

(** What the body of the loop of [check_duplicates] computes, in terms of
    the non-missing values. *)
Lemma check_duplicates_cells_values (cells : list V) :
  let total_count := Z.of_nat (length (present cells)) in
  let unique_count := Z.of_nat (length (first_occurrences (present cells))) in
  check_duplicates_cells (length cells) cells
  = [ ("total_count", PInt total_count);
      ("unique_count", PInt unique_count);
      ("duplicate_count", PInt (total_count - unique_count));
      ("duplicate_ratio",
       PFloat (if (length (present cells) =? 0)%nat then 0%float
               else (of_int (total_count - unique_count)
                     / of_int total_count)%float));
      ("duplicated_values",
       PList (firstn 100 (map to_py (repeated_values cells)))) ]%string.
Proof.
  cbv zeta. unfold check_duplicates_cells, nunique, unique.
  rewrite dropna_idem.
  unfold duplicated_keep_False. rewrite select_smap.
  rewrite (values_filter
             (fun v => (1 <? occurrences v
                               (values (dropna (series (length cells) cells))))%nat)).
  rewrite values_dropna, length_dropna.
  rewrite (unique_filter
             (fun v => (1 <? occurrences v (present cells))%nat)
             (present cells)
             (fun x y Hxy => f_equal (Nat.ltb 1)
                               (occurrences_respects x y _ Hxy))).
  rewrite !unique_from_first_occurrences.
  rewrite firstn_map. unfold repeated_values, ratio.
  destruct (present cells) as [|v l] eqn:E; reflexivity.
Qed.

Lemma duplicate_count_nonneg (cells : list V) :
  (0 <= Z.of_nat (length (present cells))
        - Z.of_nat (length (first_occurrences (present cells))))%Z.
Proof.
  rewrite <- unique_from_first_occurrences.
  pose proof (length_unique_from (present cells) []). lia.
Qed.

Lemma duplicate_count_distinct (cells : list V) :
  pairwise_distinct (present cells) ->
  (Z.of_nat (length (present cells))
   - Z.of_nat (length (first_occurrences (present cells))) = 0)%Z.
Proof.
  intros Hpd. rewrite pairwise_distinct_first_occurrences by assumption. lia.
Qed.

End Values.
End DuplicateCheck.

(** ** The outlier check *)

Module OutlierCheck.
Import Float64 Pandas Spec Checker PandasFacts.

Section Cells.
Context {R : Reduction}.
Implicit Types (cells xs : list float) (t : float).

Lemma length_filter_le {A : Type} (P Q : A -> bool) (l : list A) :
  (forall x, P x = true -> Q x = true) ->
  length (filter P l) <= length (filter Q l).
Proof.
  intros HPQ. induction l as [|x l IH]; simpl; [lia|].
  destruct (P x) eqn:E.
  - rewrite (HPQ x E). simpl. lia.
  - destruct (Q x); simpl; lia.
Qed.

Lemma std_sample_std (s : Series float) : std s = sample_std (values s).
Proof.
  unfold std, nanvar, sample_std, sample_mean.
  change (length (values s) <? 2)%nat with (length (values s) <=? 1)%nat.
  destruct (length (values s) <=? 1)%nat; reflexivity.
Qed.

Lemma mean_sample_mean (s : Series float) :
  values s <> [] -> mean s = sample_mean (values s).
Proof.
  unfold mean, nanmean, sample_mean. destruct (values s); [congruence|reflexivity].
Qed.

Lemma sample_std_nil : sample_std [] = nan.
Proof. reflexivity. Qed.

Lemma std_positive_nonempty xs : (0 <? sample_std xs)%float = true -> xs <> [].
Proof. intros H ->. rewrite sample_std_nil in H. discriminate. Qed.

(** No value is present. *)
Lemma cells_no_data cells t :
  present cells = [] ->
  check_outliers_cells (length cells) cells t
  = [ ("outlier_count", PInt 0); ("total_count", PInt 0);
      ("outlier_ratio", PFloat 0); ("outlier_indices", PList []);
      ("note", PStr note_no_data) ]%string.
Proof.
  intros E. unfold check_outliers_cells. rewrite length_dropna, E. reflexivity.
Qed.

(** Some value is present and the computed deviation is not above zero. *)
Lemma cells_zero_std cells t :
  present cells <> [] ->
  (0 <? sample_std (present cells))%float = false ->
  check_outliers_cells (length cells) cells t
  = [ ("outlier_count", PInt 0);
      ("total_count", PInt (Z.of_nat (length cells)));
      ("outlier_ratio", PFloat 0); ("outlier_indices", PList []);
      ("mean", PFloat (sample_mean (present cells)));
      ("std", PFloat 0); ("threshold", PFloat t);
      ("note", PStr note_zero_std) ]%string.
Proof.
  intros Hne Hstd. unfold check_outliers_cells.
  rewrite length_dropna, std_sample_std, values_dropna, Hstd.
  rewrite mean_sample_mean by (rewrite values_dropna; exact Hne).
  rewrite values_dropna.
  destruct (present cells); [congruence|reflexivity].
Qed.

(** With one value the deviation is undefined, and not above zero. *)
Lemma cells_single_value cells t v :
  present cells = [v] ->
  check_outliers_cells (length cells) cells t
  = [ ("outlier_count", PInt 0);
      ("total_count", PInt (Z.of_nat (length cells)));
      ("outlier_ratio", PFloat 0); ("outlier_indices", PList []);
      ("mean", PFloat (sample_mean [v]));
      ("std", PFloat 0); ("threshold", PFloat t);
      ("note", PStr note_zero_std) ]%string.
Proof.
  intros E. rewrite <- E. apply cells_zero_std.
  - rewrite E. discriminate.
  - rewrite E. reflexivity.
Qed.

(** The computed deviation is above zero. *)
Lemma cells_flagged cells t :
  (0 <? sample_std (present cells))%float = true ->
  let flagged := flagged_rows cells t in
  check_outliers_cells (length cells) cells t
  = [ ("outlier_count", PInt (Z.of_nat (length flagged)));
      ("total_count", PInt (Z.of_nat (length cells)));
      ("outlier_ratio",
       PFloat (of_int (Z.of_nat (length flagged))
               / of_int (Z.of_nat (length cells)))%float);
      ("outlier_indices", int_list (firstn 100 flagged));
      ("mean", PFloat (sample_mean (present cells)));
      ("std", PFloat (sample_std (present cells)));
      ("threshold", PFloat t) ]%string.
Proof.
  intros Hstd. cbv zeta.
  pose proof (std_positive_nonempty _ Hstd) as Hne.
  assert (Hlen : (0 <? length (present cells))%nat = true)
    by (destruct (present cells); [congruence|reflexivity]).
  unfold check_outliers_cells.
  rewrite length_dropna, Hlen, std_sample_std, values_dropna, Hstd.
  rewrite mean_sample_mean by (rewrite values_dropna; exact Hne).
  rewrite values_dropna.
  set (m := sample_mean (present cells)).
  set (s := sample_std (present cells)) in *.
  rewrite smap_smap.
  rewrite (mask_sum_smap (fun v => (t <? PrimFloat.abs ((v - m) / s))%float)).
  rewrite (select_smap (fun v => (t <? PrimFloat.abs ((v - m) / s))%float)).
  pose (Q := fun v => negb (isna v) && (t <? z_score m s v)%float).
  assert (E : filter (fun p => (t <? PrimFloat.abs ((snd p - m) / s))%float)
                (dropna (series (length cells) cells))
              = filter (fun p => Q (snd p)) (series (length cells) cells)).
  { unfold dropna. rewrite PandasFacts.filter_filter.
    apply filter_ext. intros [i v]. unfold Q, z_score. simpl.
    now rewrite (Float64Facts.abs_div_pos _ _ Hstd). }
  rewrite E, (index_filter_series Q cells).
  replace (length (filter (fun p => Q (snd p)) (series (length cells) cells)))
    with (length (rows_where Q cells)).
  2:{ rewrite <- (index_filter_series Q cells).
      unfold index. now rewrite length_map. }
  change (rows_where Q cells) with (flagged_rows cells t).
  unfold ratio, int_list.
  destruct cells as [|v cells]; [exfalso; apply Hne; reflexivity|].
  reflexivity.
Qed.

(** The count does not grow with the threshold. *)
Lemma flagged_rows_monotone cells t1 t2 :
  (t1 <=? t2)%float = true ->
  length (flagged_rows cells t2) <= length (flagged_rows cells t1).
Proof.
  intros Ht. unfold flagged_rows. rewrite !length_rows_where.
  apply length_filter_le. intros v Hv.
  apply andb_true_iff in Hv. destruct Hv as [Hp Hz].
  rewrite Hp. simpl. eapply Float64Facts.leb_ltb_trans; eassumption.
Qed.

End Cells.
End OutlierCheck.

(** ** The claims *)

Section Claims.
Import Float64 Pandas Spec Checker PandasFacts.
Context {R : Reduction}.

Lemma column_of_frame (df : DataFrame) (name : string) (c : Column) :
  well_formed df -> In (name, c) (columns df) -> column_length c = len df.
Proof.
  intros [Hlen _] Hin. rewrite Forall_forall in Hlen. apply (Hlen _ Hin).
Qed.

Lemma null_entry (df : DataFrame) (name : string) (c : Column) :
  well_formed df -> In (name, c) (columns df) ->
  PyDict.get name (check_null df) = Some (check_null_column (column_length c) c).
Proof.
  intros Hwf Hin. rewrite (column_of_frame df name c Hwf Hin).
  destruct Hwf as [_ Hnd]. unfold check_null.
  apply (PyDictFacts.get_collect_items (check_null_column (len df))
           (columns df) name c Hnd Hin).
Qed.

Lemma duplicates_entry (df : DataFrame) (name : string) (c : Column) :
  well_formed df -> In (name, c) (columns df) ->
  PyDict.get name (check_duplicates df)
  = Some (check_duplicates_column (column_length c) c).
Proof.
  intros Hwf Hin. rewrite (column_of_frame df name c Hwf Hin).
  destruct Hwf as [_ Hnd]. unfold check_duplicates.
  apply (PyDictFacts.get_collect_items (check_duplicates_column (len df))
           (columns df) name c Hnd Hin).
Qed.

Lemma outliers_entry (df : DataFrame) (name : string) (c : Column) (t : float) :
  well_formed df -> In (name, c) (columns df) ->
  PyDict.get name (check_outliers df t)
  = Some (check_outliers_column (column_length c) c t).
Proof.
  intros Hwf Hin. rewrite (column_of_frame df name c Hwf Hin).
  destruct Hwf as [_ Hnd]. unfold check_outliers.
  apply (PyDictFacts.get_collect_items
           (fun c => check_outliers_column (len df) c t)
           (columns df) name c Hnd Hin).
Qed.

(** C5. For every column of every table the null check reports the number
    of missing entries as null_count (it and the number of present values
    add up to total_count), the table's row count as total_count, their
    quotient as null_ratio (0.0 for an empty table), and as null_indices the
    rows of the missing entries in row order, cut to the first 100, while
    the count is taken over all of them. *)
Theorem null_check_reports_missing_rows (df : DataFrame) (name : string)
  (c : Column) :
  well_formed df -> In (name, c) (columns df) ->
  let missing := missing_rows c in
  let null_count := Z.of_nat (length missing) in
  let total_count := Z.of_nat (len df) in
  (null_count + Z.of_nat (present_count c) = total_count)%Z
  /\ PyDict.get name (check_null df)
     = Some [ ("null_count", PInt null_count);
              ("total_count", PInt total_count);
              ("null_ratio",
               PFloat (if (len df =? 0)%nat then 0%float
                       else (of_int null_count / of_int total_count)%float));
              ("null_indices", int_list (firstn 100 missing)) ]%string.
Proof.
  intros Hwf Hin. pose proof (column_of_frame df name c Hwf Hin) as Hlen.
  cbv zeta. split.
  - rewrite <- Hlen. destruct c as [cells|cells];
      unfold missing_rows, present_count, column_length;
      pose proof (NullCheck.missing_plus_present cells); lia.
  - rewrite (null_entry df name c Hwf Hin), <- Hlen.
    destruct c as [cells|cells]; simpl;
      now rewrite NullCheck.check_null_cells_rows.
Qed.

(** C6. For every column the duplicate check leaves the missing entries
    out and reports the number of non-missing values as total_count, the
    number of distinct ones (equality by value) as unique_count, their
    difference as duplicate_count, duplicate_count / total_count as
    duplicate_ratio (0.0 without values), and as duplicated_values the
    distinct values occurring more than once, in first-occurrence order, cut
    to the first 100. duplicate_count is never negative, it is 0 when the
    values are pairwise distinct, and a column of missing entries only has
    no duplicates. *)
Theorem duplicate_check_reports_repeated_values (df : DataFrame)
  (name : string) (c : Column) :
  well_formed df -> In (name, c) (columns df) ->
  let total_count := Z.of_nat (present_count c) in
  let unique_count := Z.of_nat (distinct_count c) in
  let duplicate_count := (total_count - unique_count)%Z in
  PyDict.get name (check_duplicates df)
  = Some [ ("total_count", PInt total_count);
           ("unique_count", PInt unique_count);
           ("duplicate_count", PInt duplicate_count);
           ("duplicate_ratio",
            PFloat (if (present_count c =? 0)%nat then 0%float
                    else (of_int duplicate_count / of_int total_count)%float));
           ("duplicated_values", PList (firstn 100 (repeated c))) ]%string
  /\ (0 <= duplicate_count)%Z
  /\ (values_pairwise_distinct c -> duplicate_count = 0%Z)
  /\ (present_count c = 0%nat -> duplicate_count = 0%Z /\ repeated c = []).
Proof.
  intros Hwf Hin. cbv zeta.
  rewrite (duplicates_entry df name c Hwf Hin).
  destruct c as [cells|cells];
    unfold present_count, distinct_count, repeated, values_pairwise_distinct,
      check_duplicates_column, column_length;
    (split; [now rewrite DuplicateCheck.check_duplicates_cells_values|]);
    (split; [apply DuplicateCheck.duplicate_count_nonneg|]);
    (split; [apply DuplicateCheck.duplicate_count_distinct|]);
    intros E; apply length_zero_iff_nil in E;
    unfold repeated_values; rewrite E; split; reflexivity.
Qed.

(** C1. For every numeric column whose non-missing values have a sample
    standard deviation (denominator n - 1) above 0, the outlier check takes
    mean and deviation over the non-missing values only, flags exactly the
    non-missing values with |value - mean| / std strictly above the
    threshold (a z-score equal to the threshold is not flagged), and reports
    their number, their rows in row order cut to the first 100, and the
    mean, the deviation and the threshold. *)
Theorem outlier_check_flags_zscores_above_threshold (df : DataFrame)
  (name : string) (cells : list float) (t : float) :
  well_formed df -> In (name, Float64 cells) (columns df) ->
  (0 <? sample_std (present cells))%float = true ->
  let mean := sample_mean (present cells) in
  let std := sample_std (present cells) in
  let flagged :=
    rows_where (fun v => negb (isna v)
                         && (t <? PrimFloat.abs (v - mean) / std)%float) cells in
  PyDict.get name (check_outliers df t)
  = Some [ ("outlier_count", PInt (Z.of_nat (length flagged)));
           ("total_count", PInt (Z.of_nat (len df)));
           ("outlier_ratio",
            PFloat (of_int (Z.of_nat (length flagged))
                    / of_int (Z.of_nat (len df)))%float);
           ("outlier_indices", int_list (firstn 100 flagged));
           ("mean", PFloat mean);
           ("std", PFloat std);
           ("threshold", PFloat t) ]%string
  /\ (forall i v, nth_error cells i = Some v ->
        (PrimFloat.abs (v - mean) / std)%float = t -> ~ In i flagged).
Proof.
  intros Hwf Hin Hstd. cbv zeta. split.
  - rewrite (outliers_entry df name _ t Hwf Hin).
    rewrite <- (column_of_frame df name _ Hwf Hin).
    unfold check_outliers_column, column_length.
    now rewrite (OutlierCheck.cells_flagged cells t Hstd).
  - intros i v Hi Hz Hfl. unfold rows_where in Hfl.
    apply filter_In in Hfl. destruct Hfl as [_ Hfl].
    unfold cell_at in Hfl. rewrite Hi, Hz in Hfl.
    rewrite Float64Facts.ltb_irrefl, andb_false_r in Hfl. discriminate.
Qed.

(** C7. For every numeric column and thresholds t1 <= t2, the outlier_count
    reported at t2 is at most the one reported at t1. *)
Theorem outlier_count_monotone_in_threshold (df : DataFrame) (name : string)
  (c : Column) (t1 t2 : float) :
  well_formed df -> In (name, c) (columns df) ->
  is_numeric_dtype c = true ->
  (t1 <=? t2)%float = true ->
  exists k1 k2 : Z,
    field name "outlier_count" (check_outliers df t1) = Some (PInt k1)
    /\ field name "outlier_count" (check_outliers df t2) = Some (PInt k2)
    /\ (k2 <= k1)%Z.
Proof.
  intros Hwf Hin Hnum Ht. unfold field.
  rewrite !(outliers_entry df name c _ Hwf Hin).
  destruct c as [cells|cells]; [|discriminate]. simpl.
  destruct (0 <? sample_std (present cells))%float eqn:Hstd.
  - rewrite !(OutlierCheck.cells_flagged cells _ Hstd). simpl.
    do 2 eexists. repeat split.
    pose proof (OutlierCheck.flagged_rows_monotone cells t1 t2 Ht). lia.
  - destruct (present cells) as [|v l] eqn:E.
    + rewrite !(OutlierCheck.cells_no_data cells _ E). simpl.
      exists 0%Z, 0%Z. repeat split. lia.
    + assert (Hne : present cells <> []) by (rewrite E; discriminate).
      rewrite <- E in Hstd.
      rewrite !(OutlierCheck.cells_zero_std cells _ Hne Hstd). simpl.
      exists 0%Z, 0%Z. repeat split. lia.
Qed.

(** C8. A column that is not numeric gets an entry with a note and nothing
    else: no count, ratio or index field. A numeric column without
    non-missing values gets outlier_count 0, total_count 0, outlier_ratio
    0.0, no outlier_indices and the no-data note. *)
Theorem outlier_check_skips_non_numeric_and_empty (df : DataFrame)
  (name : string) (c : Column) (t : float) :
  well_formed df -> In (name, c) (columns df) ->
  (is_numeric_dtype c = false ->
     PyDict.get name (check_outliers df t)
     = Some [ ("note", PStr note_not_numeric) ]%string
     /\ forall key, key <> "note"%string ->
          field name key (check_outliers df t) = None)
  /\ (is_numeric_dtype c = true -> present_count c = 0%nat ->
       PyDict.get name (check_outliers df t)
       = Some [ ("outlier_count", PInt 0);
                ("total_count", PInt 0);
                ("outlier_ratio", PFloat 0);
                ("outlier_indices", PList []);
                ("note", PStr note_no_data) ]%string).
Proof.
  intros Hwf Hin. unfold field.
  rewrite (outliers_entry df name c t Hwf Hin). split.
  - destruct c as [cells|cells]; [discriminate|]. intros _. simpl. split.
    + reflexivity.
    + intros key Hkey. apply String.eqb_neq in Hkey. now rewrite Hkey.
  - destruct c as [cells|cells]; [|discriminate]. intros _ E. simpl in *.
    apply length_zero_iff_nil in E.
    now rewrite (OutlierCheck.cells_no_data cells t E).
Qed.

(** C3 (as amended). The duplicate ratio divides by the number of
    non-missing values (0.0 without any). For a numeric column with a
    non-missing value the outlier check reports the full row count as
    total_count and outlier_count / row count as outlier_ratio, which is the
    literal 0.0, with outlier_count 0, when the deviation is not above 0. A
    numeric column without non-missing values reports total_count 0 and
    outlier_ratio 0.0 whatever the row count, and a column that is not
    numeric reports neither. *)
Theorem ratio_denominators (df : DataFrame) (name : string) (c : Column)
  (t : float) :
  well_formed df -> In (name, c) (columns df) ->
  (exists d : Z,
     field name "duplicate_count" (check_duplicates df) = Some (PInt d)
     /\ field name "total_count" (check_duplicates df)
        = Some (PInt (Z.of_nat (present_count c)))
     /\ field name "duplicate_ratio" (check_duplicates df)
        = Some (PFloat (if (present_count c =? 0)%nat then 0%float
                        else (of_int d
                              / of_int (Z.of_nat (present_count c)))%float)))
  /\ (is_numeric_dtype c = true -> present_count c <> 0%nat ->
       exists k : Z,
         field name "outlier_count" (check_outliers df t) = Some (PInt k)
         /\ field name "total_count" (check_outliers df t)
            = Some (PInt (Z.of_nat (len df)))
         /\ field name "outlier_ratio" (check_outliers df t)
            = Some (PFloat (if (0 <? sample_std (numeric_present c))%float
                            then (of_int k / of_int (Z.of_nat (len df)))%float
                            else 0%float))
         /\ ((0 <? sample_std (numeric_present c))%float = false -> k = 0%Z))
  /\ (is_numeric_dtype c = true -> present_count c = 0%nat ->
       field name "total_count" (check_outliers df t) = Some (PInt 0)
       /\ field name "outlier_ratio" (check_outliers df t) = Some (PFloat 0))
  /\ (is_numeric_dtype c = false ->
       field name "total_count" (check_outliers df t) = None
       /\ field name "outlier_ratio" (check_outliers df t) = None).
Proof.
  intros Hwf Hin. unfold field.
  rewrite (duplicates_entry df name c Hwf Hin).
  rewrite (outliers_entry df name c t Hwf Hin).
  rewrite <- (column_of_frame df name c Hwf Hin).
  split; [|split; [|split]].
  - destruct c as [cells|cells];
      unfold check_duplicates_column, column_length, present_count;
      rewrite DuplicateCheck.check_duplicates_cells_values;
      eexists; repeat split.
  - destruct c as [cells|cells]; [|discriminate]. intros _ Hne.
    unfold check_outliers_column, column_length, present_count,
      numeric_present in *.
    assert (Hne' : present cells <> []) by (intros E; rewrite E in Hne; auto).
    destruct (0 <? sample_std (present cells))%float eqn:Hstd.
    + rewrite (OutlierCheck.cells_flagged cells t Hstd).
      eexists; repeat split. discriminate.
    + rewrite (OutlierCheck.cells_zero_std cells t Hne' Hstd).
      exists 0%Z. repeat split.
  - destruct c as [cells|cells]; [|discriminate]. intros _ E.
    unfold check_outliers_column, column_length, present_count in *.
    apply length_zero_iff_nil in E.
    rewrite (OutlierCheck.cells_no_data cells t E). split; reflexivity.
  - destruct c as [cells|cells]; [discriminate|]. intros _.
    split; reflexivity.
Qed.

(** C2 (as amended). The outlier check does not validate the threshold: for
    every frame and every threshold, also one that is not positive or not
    finite, the call raises nothing and returns per-column results: the keys
    are the table's column names, and each entry is the outlier result of a
    column of that name at that threshold. *)
Theorem outlier_check_accepts_any_threshold (df : DataFrame) (t : float) :
  exists result,
    call_check_outliers df t = Returns result
    /\ (forall name,
          In name (PyDict.keys result) <-> In name (map fst (columns df)))
    /\ (forall name entry, In (name, entry) result ->
          exists c, In (name, c) (columns df)
                    /\ entry = check_outliers_column (len df) c t).
Proof.
  exists (check_outliers df t). split; [reflexivity|]. split.
  - intros name. unfold check_outliers. apply PyDictFacts.keys_collect.
  - intros name entry Hin. apply PyDictFacts.In_collect_inv in Hin.
    destruct Hin as ([n c] & Hc & Hn & He). simpl in *. subst n.
    exists c. auto.
Qed.

(** The shape of the report: it has the sheets in
    dataset order; each sheet's entry has the three keys null_check,
    duplicate_check and outlier_check, each a dict over the columns of the
    sheet's table in table order, holding that check's result for the
    column; every column of every sheet gets its three results. *)
Theorem report_covers_sheets_and_columns (data_dict : PyDict.dict DataFrame)
  (t : float) :
  NoDup (PyDict.keys data_dict) ->
  (forall sheet df, In (sheet, df) data_dict -> well_formed df) ->
  PyDict.keys (check_file data_dict t) = PyDict.keys data_dict
  /\ forall sheet df, In (sheet, df) data_dict ->
     exists nulls dups outs,
       PyDict.get sheet (check_file data_dict t)
       = Some [ ("null_check", nulls);
                ("duplicate_check", dups);
                ("outlier_check", outs) ]%string
       /\ PyDict.keys nulls = map fst (columns df)
       /\ PyDict.keys dups = map fst (columns df)
       /\ PyDict.keys outs = map fst (columns df)
       /\ forall name c, In (name, c) (columns df) ->
            PyDict.get name nulls = Some (check_null_column (len df) c)
            /\ PyDict.get name dups
               = Some (check_duplicates_column (len df) c)
            /\ PyDict.get name outs
               = Some (check_outliers_column (len df) c t).
Proof.
  intros Hnd Hwf. split.
  - unfold check_file. now apply PyDictFacts.keys_collect_NoDup.
  - intros sheet df Hin.
    exists (check_null df), (check_duplicates df), (check_outliers df t).
    pose proof (Hwf sheet df Hin) as Hdf.
    split; [|split; [|split; [|split]]].
    + unfold check_file.
      apply (PyDictFacts.get_collect_items (fun df => perform_checks df t)
               data_dict sheet df Hnd Hin).
    + apply PyDictFacts.keys_collect_NoDup, Hdf.
    + apply PyDictFacts.keys_collect_NoDup, Hdf.
    + apply PyDictFacts.keys_collect_NoDup, Hdf.
    + intros name c Hc.
      rewrite (null_entry df name c Hdf Hc),
        (duplicates_entry df name c Hdf Hc),
        (outliers_entry df name c t Hdf Hc),
        (column_of_frame df name c Hdf Hc).
      auto.
Qed.

(** C10. For every table, each of the three result maps has exactly the
    table's column names as its keys, and an entry of the outlier map is the
    outlier result of a column of that name, which for a column that is not
    numeric is the note alone. *)
Theorem every_column_has_an_entry (df : DataFrame) (t : float)
  (name : string) :
  (In name (PyDict.keys (check_null df)) <-> In name (map fst (columns df)))
  /\ (In name (PyDict.keys (check_duplicates df))
      <-> In name (map fst (columns df)))
  /\ (In name (PyDict.keys (check_outliers df t))
      <-> In name (map fst (columns df)))
  /\ forall entry, In (name, entry) (check_outliers df t) ->
       exists c, In (name, c) (columns df)
         /\ entry = check_outliers_column (len df) c t
         /\ (is_numeric_dtype c = false ->
             entry = [ ("note", PStr note_not_numeric) ]%string).
Proof.
  split; [|split; [|split]].
  - apply PyDictFacts.keys_collect.
  - apply PyDictFacts.keys_collect.
  - apply PyDictFacts.keys_collect.
  - intros entry Hin. apply PyDictFacts.In_collect_inv in Hin.
    destruct Hin as ([n c] & Hc & Hn & He). simpl in *. subst n.
    exists c. repeat split; auto.
    intros Hnum. subst entry. destruct c; [discriminate|reflexivity].
Qed.

End Claims.

(** ** The claims on the example frames *)

Section OnExamples.
Import Float64 Pandas Spec Checker Examples.
Open Scope string_scope.

Ltac frame_well_formed :=
  split;
  [ repeat constructor
  | repeat (constructor; [simpl; intuition discriminate|]); constructor ].

Lemma readings_well_formed : well_formed readings.
Proof. frame_well_formed. Qed.

Lemma scores_well_formed : well_formed scores.
Proof. frame_well_formed. Qed.

Lemma blank_well_formed : well_formed blank.
Proof. frame_well_formed. Qed.

Lemma constant_well_formed : well_formed constant.
Proof. frame_well_formed. Qed.

Lemma null_check_on_readings :
  well_formed readings
  /\ In ("value", Float64 [1; 2; 2; 3; nan]%float) (columns readings)
  /\ PyDict.get "value" (check_null readings)
     = Some [ ("null_count", PInt 1); ("total_count", PInt 5);
              ("null_ratio", PFloat 0.2); ("null_indices", PList [PInt 4]) ].
Proof.
  split; [exact readings_well_formed|].
  split; [simpl; auto|].
  exact (proj2 (null_check_reports_missing_rows readings "value" _
                  readings_well_formed (or_introl eq_refl))).
Defined.

Lemma duplicate_check_on_readings :
  well_formed readings
  /\ In ("value", Float64 [1; 2; 2; 3; nan]%float) (columns readings)
  /\ PyDict.get "value" (check_duplicates readings)
     = Some [ ("total_count", PInt 4); ("unique_count", PInt 3);
              ("duplicate_count", PInt 1); ("duplicate_ratio", PFloat 0.25);
              ("duplicated_values", PList [PFloat 2]) ].
Proof.
  split; [exact readings_well_formed|].
  split; [simpl; auto|].
  exact (proj1 (duplicate_check_reports_repeated_values readings "value" _
                  readings_well_formed (or_introl eq_refl))).
Defined.

Lemma outlier_check_on_scores :
  well_formed scores
  /\ In ("score", Float64 [10; 10; 10; 10; 1000]%float) (columns scores)
  /\ (0 <? sample_std (R := loop_sum)
             (present [10; 10; 10; 10; 1000]%float))%float = true
  /\ PyDict.get "score" (check_outliers (R := loop_sum) scores 1)
     = Some [ ("outlier_count", PInt 1); ("total_count", PInt 5);
              ("outlier_ratio", PFloat 0.2);
              ("outlier_indices", PList [PInt 4]);
              ("mean", PFloat 208); ("std", PFloat 442.74145954495833);
              ("threshold", PFloat 1) ].
Proof.
  split; [exact scores_well_formed|].
  split; [simpl; auto|].
  split; [reflexivity|].
  exact (proj1 (outlier_check_flags_zscores_above_threshold (R := loop_sum)
                  scores "score" _ 1 scores_well_formed (or_introl eq_refl)
                  eq_refl)).
Defined.

Lemma outlier_count_on_scores :
  well_formed scores
  /\ In ("score", Float64 [10; 10; 10; 10; 1000]%float) (columns scores)
  /\ (1 <=? 3)%float = true
  /\ exists k1 k2 : Z,
       field "score" "outlier_count" (check_outliers (R := loop_sum) scores 1)
       = Some (PInt k1)
       /\ field "score" "outlier_count"
            (check_outliers (R := loop_sum) scores 3)
          = Some (PInt k2)
       /\ (k2 <= k1)%Z.
Proof.
  split; [exact scores_well_formed|].
  split; [simpl; auto|].
  split; [reflexivity|].
  exact (outlier_count_monotone_in_threshold (R := loop_sum) scores "score" _
           1 3 scores_well_formed (or_introl eq_refl) eq_refl eq_refl).
Defined.

Lemma outlier_check_on_text_column :
  well_formed readings
  /\ In ("label", Object [Some "x"; None; Some "x"; Some "y"; None])
       (columns readings)
  /\ PyDict.get "label" (check_outliers (R := loop_sum) readings 3)
     = Some [ ("note", PStr note_not_numeric) ].
Proof.
  split; [exact readings_well_formed|].
  split; [simpl; auto|].
  exact (proj1 (proj1 (outlier_check_skips_non_numeric_and_empty
                         (R := loop_sum) readings "label" _ 3
                         readings_well_formed (or_intror (or_introl eq_refl)))
                  eq_refl)).
Defined.

Lemma ratio_denominators_on_readings :
  well_formed readings
  /\ In ("value", Float64 [1; 2; 2; 3; nan]%float) (columns readings)
  /\ field "value" "total_count" (check_duplicates readings) = Some (PInt 4)
  /\ field "value" "total_count" (check_outliers (R := loop_sum) readings 3)
     = Some (PInt 5).
Proof.
  split; [exact readings_well_formed|].
  split; [simpl; auto|].
  pose proof (ratio_denominators (R := loop_sum) readings "value" _ 3
                readings_well_formed (or_introl eq_refl)) as H.
  destruct H as [(d & _ & Hd & _) [Ho _]].
  split; [exact Hd|].
  destruct (Ho eq_refl ltac:(discriminate)) as (k & _ & Hk & _).
  exact Hk.
Defined.

Lemma report_on_workbook :
  NoDup (PyDict.keys workbook)
  /\ PyDict.keys (check_file (R := loop_sum) workbook 3)
     = [ "readings"; "scores" ].
Proof.
  assert (Hnd : NoDup (PyDict.keys workbook))
    by (repeat (constructor; [simpl; intuition discriminate|]); constructor).
  split; [exact Hnd|].
  refine (proj1 (report_covers_sheets_and_columns (R := loop_sum) workbook 3
                   Hnd _)).
  intros sheet df [E|[E|[]]]; injection E as _ <-.
  - exact readings_well_formed.
  - exact scores_well_formed.
Defined.

(** C3, as stated, fails: on a table of one row whose numeric cell is
    missing, the outlier result's total_count is 0, not the row count. *)
Lemma outlier_total_count_of_blank_column :
  well_formed blank
  /\ In ("x", Float64 [nan]%float) (columns blank)
  /\ len blank = 1%nat
  /\ field "x" "total_count" (check_outliers (R := loop_sum) blank 3)
     = Some (PInt 0)
  /\ field "x" "total_count" (check_outliers (R := loop_sum) blank 3)
     <> Some (PInt (Z.of_nat (len blank))).
Proof.
  split; [exact blank_well_formed|].
  split; [simpl; auto|].
  split; [reflexivity|].
  split; [reflexivity|].
  vm_compute. discriminate.
Qed.

(** C2, as stated, fails: with the threshold -1, which is not positive, the
    call returns per-column results and does not raise. *)
Lemma negative_threshold_is_not_rejected :
  positive_finite (-1)%float = false
  /\ call_check_outliers (R := loop_sum)
       {| len := 2; columns := [ ("x", Float64 [1; 2]%float) ] |} (-1)%float
     = Returns
         [ ("x", [ ("outlier_count", PInt 2); ("total_count", PInt 2);
                   ("outlier_ratio", PFloat 1);
                   ("outlier_indices", PList [PInt 0; PInt 1]);
                   ("mean", PFloat 1.5);
                   ("std", PFloat 0.70710678118654757);
                   ("threshold", PFloat (-1)) ]) ]
  /\ call_check_outliers (R := loop_sum)
       {| len := 2; columns := [ ("x", Float64 [1; 2]%float) ] |} (-1)%float
     <> Raises "InvalidThreshold".
Proof.
  split; [reflexivity|]. split; [vm_compute; reflexivity|]. discriminate.
Qed.

(** C4 fails on the code: three identical values 0.1 have the computed mean
    0.10000000000000002 and a deviation above 0, so the column is not
    reported as having zero variance, and at threshold 0.5 each of the three
    values is flagged. *)
Theorem identical_values_flagged_as_outliers :
  columns constant = [ ("x", Float64 [0.1; 0.1; 0.1]%float) ]
  /\ check_outliers (R := loop_sum) constant 0.5
     = [ ("x", [ ("outlier_count", PInt 3); ("total_count", PInt 3);
                 ("outlier_ratio", PFloat 1);
                 ("outlier_indices", PList [PInt 0; PInt 1; PInt 2]);
                 ("mean", PFloat 0.10000000000000002);
                 ("std", PFloat 1.6996749443881478e-17);
                 ("threshold", PFloat 0.5) ]) ].
Proof. split; [reflexivity|]. vm_compute. reflexivity. Qed.

End OnExamples.

(** * Further properties *)

(** ** Exceptions in the loops *)

Module RaisingFacts.
Import Float64 Pandas Spec Checker PandasFacts Raising.

Section Loops.
Context {A V : Type} (key : A -> string).

(** When no item raises, the loop is the plain one. *)
Lemma loop_returns (val : A -> outcome V) (f : A -> V) (xs : list A) :
  (forall x, In x xs -> val x = Returns (f x)) ->
  forall result,
  loop key val result xs = Returns (PyDict.loop key f result xs).
Proof.
  induction xs as [|x xs IH]; intros Hval result; simpl; [reflexivity|].
  rewrite (Hval x (or_introl eq_refl)).
  apply IH. intros y Hy. apply Hval. now right.
Qed.

(** When an item raises, so does the loop: what was collected is lost. *)
Lemma loop_raises (val : A -> outcome V) (e : string) (xs : list A) :
  (forall y e', In y xs -> val y = Raises e' -> e' = e) ->
  (exists x, In x xs /\ val x = Raises e) ->
  forall result, loop key val result xs = Raises e.
Proof.
  induction xs as [|x xs IH]; intros Huni (y & Hy & Hraise) result;
    [destruct Hy|]. simpl.
  destruct (val x) as [v|e'] eqn:Ex.
  - apply IH.
    + intros z e'' Hz. apply Huni. now right.
    + destruct Hy as [->|Hy]; [congruence|]. exists y. auto.
  - f_equal. apply (Huni x e' (or_introl eq_refl) Ex).
Qed.

Lemma loop_raises_only (val : A -> outcome V) (e e' : string) (xs : list A) :
  (forall y e'', In y xs -> val y = Raises e'' -> e'' = e) ->
  forall result, loop key val result xs = Raises e' -> e' = e.
Proof.
  induction xs as [|x xs IH]; intros Huni result; simpl; [discriminate|].
  destruct (val x) as [v|e''] eqn:Ex.
  - apply IH. intros z e3 Hz. apply Huni. now right.
  - intros E. injection E as <-. apply (Huni x e'' (or_introl eq_refl) Ex).
Qed.

End Loops.

Lemma PyDict_loop_map {A B V : Type} (g : A -> B) (key : B -> string)
  (val : B -> V) (xs : list A) : forall result,
  PyDict.loop key val result (map g xs)
  = PyDict.loop (fun x => key (g x)) (fun x => val (g x)) result xs.
Proof.
  unfold PyDict.loop. induction xs as [|x xs IH]; intros result; simpl;
    [reflexivity|apply IH].
Qed.

Lemma PyDict_loop_ext {A V : Type} (key : A -> string) (val val' : A -> V)
  (xs : list A) :
  (forall x, In x xs -> val x = val' x) ->
  forall result,
  PyDict.loop key val result xs = PyDict.loop key val' result xs.
Proof.
  unfold PyDict.loop. induction xs as [|x xs IH]; intros Hext result; simpl;
    [reflexivity|].
  rewrite (Hext x (or_introl eq_refl)). apply IH.
  intros y Hy. apply Hext. now right.
Qed.

Section Frames.
Context {R : Reduction}.

Lemma collect_hashable {V : Type} (check : nat -> AnyColumn -> outcome V)
  (plain : nat -> Column -> V) (df : DataFrame) :
  (forall n c, check n (Hashable c) = Returns (plain n c)) ->
  collect fst (fun nc => check (frame_len (hashable df)) (snd nc))
    (frame_columns (hashable df))
  = Returns (PyDict.collect fst (fun nc => plain (len df) (snd nc))
               (columns df)).
Proof.
  intros Hcheck. unfold collect, PyDict.collect.
  rewrite (loop_returns fst _
             (fun nc => match snd nc with
                        | Hashable c => plain (len df) c
                        | Lists _ => plain (len df) (Object [])
                        end)).
  - simpl. now rewrite PyDict_loop_map.
  - intros [n c] Hin. simpl in Hin. apply in_map_iff in Hin.
    destruct Hin as ([n' c'] & E & _). injection E as <- <-.
    simpl. apply Hcheck.
Qed.

Lemma check_null_hashable (df : DataFrame) :
  Raising.check_null (hashable df) = Returns (Checker.check_null df).
Proof. apply (collect_hashable check_null_column). reflexivity. Qed.

Lemma check_duplicates_hashable (df : DataFrame) :
  Raising.check_duplicates (hashable df)
  = Returns (Checker.check_duplicates df).
Proof. apply (collect_hashable check_duplicates_column). reflexivity. Qed.

Lemma check_outliers_hashable (df : DataFrame) (t : float) :
  Raising.check_outliers (hashable df) t
  = Returns (Checker.check_outliers df t).
Proof.
  apply (collect_hashable (fun n c => check_outliers_column n c t)
           (fun n c => Checker.check_outliers_column n c t)).
  reflexivity.
Qed.

Lemma perform_checks_hashable (df : DataFrame) (t : float) :
  Raising.perform_checks (hashable df) t
  = Returns (Checker.perform_checks df t).
Proof.
  unfold Raising.perform_checks.
  now rewrite check_null_hashable, check_duplicates_hashable,
    check_outliers_hashable.
Qed.

Lemma check_file_hashable (data_dict : PyDict.dict DataFrame) (t : float) :
  Raising.check_file (hashable_dataset data_dict) t
  = Returns (Checker.check_file data_dict t).
Proof.
  unfold Raising.check_file, collect, Checker.check_file, PyDict.collect.
  rewrite (loop_returns fst _
             (fun item => match Raising.perform_checks (snd item) t with
                          | Returns r => r
                          | Raises _ => []
                          end)).
  - unfold hashable_dataset. rewrite PyDict_loop_map. f_equal.
    apply PyDict_loop_ext. intros [s df] _. simpl.
    now rewrite perform_checks_hashable.
  - intros [s f] Hin. unfold hashable_dataset in Hin.
    apply in_map_iff in Hin. destruct Hin as ([s' df] & E & _).
    injection E as <- <-. simpl. now rewrite perform_checks_hashable.
Qed.

(** The duplicate check hashes the values of a column, and a list does not
    hash. *)
Lemma check_duplicates_column_lists (n : nat)
  (cells : list (option (list string))) (l : list string) :
  length cells = n -> In (Some l) cells ->
  check_duplicates_column n (Lists cells) = Raises "TypeError".
Proof.
  intros <- Hin. unfold check_duplicates_column.
  rewrite length_dropna.
  assert (Hp : In (Some l) (present cells)).
  { unfold present. apply filter_In. split; [exact Hin|reflexivity]. }
  destruct (present cells); [destruct Hp|reflexivity].
Qed.

Lemma check_duplicates_column_raises_only (n : nat) (c : AnyColumn)
  (e : string) :
  check_duplicates_column n c = Raises e -> e = "TypeError"%string.
Proof.
  destruct c as [c|cells]; simpl; [discriminate|].
  destruct (0 <? length (dropna (series n cells)))%nat; [|discriminate].
  intros E. now injection E.
Qed.

Lemma check_null_returns (df : AnyFrame) :
  exists r, Raising.check_null df = Returns r.
Proof.
  unfold Raising.check_null, collect.
  eexists. apply (loop_returns fst _
    (fun nc => match check_null_column (frame_len df) (snd nc) with
               | Returns r => r
               | Raises _ => []
               end)).
  intros [n c] _. simpl. destruct c; reflexivity.
Qed.

Lemma check_outliers_returns (df : AnyFrame) (t : float) :
  exists r, Raising.check_outliers df t = Returns r.
Proof.
  unfold Raising.check_outliers, collect.
  eexists. apply (loop_returns fst _
    (fun nc => match check_outliers_column (frame_len df) (snd nc) t with
               | Returns r => r
               | Raises _ => []
               end)).
  intros [n c] _. simpl. destruct c; reflexivity.
Qed.

Lemma check_duplicates_raises_only (df : AnyFrame) (e : string) :
  Raising.check_duplicates df = Raises e -> e = "TypeError"%string.
Proof.
  unfold Raising.check_duplicates, collect. apply loop_raises_only.
  intros [n c] e' _. apply check_duplicates_column_raises_only.
Qed.

Lemma perform_checks_raises_only (df : AnyFrame) (t : float) (e : string) :
  Raising.perform_checks df t = Raises e -> e = "TypeError"%string.
Proof.
  unfold Raising.perform_checks.
  destruct (check_null_returns df) as [n ->].
  destruct (Raising.check_duplicates df) as [d|e'] eqn:Ed.
  - destruct (check_outliers_returns df t) as [o ->]. discriminate.
  - intros E. injection E as <-. now apply check_duplicates_raises_only in Ed.
Qed.

(** A column of lists makes the checks of its whole frame raise. *)
Lemma perform_checks_lists (df : AnyFrame) (t : float) (name : string)
  (cells : list (option (list string))) (l : list string) :
  In (name, Lists cells) (frame_columns df) ->
  length cells = frame_len df -> In (Some l) cells ->
  Raising.perform_checks df t = Raises "TypeError".
Proof.
  intros Hin Hlen Hl. unfold Raising.perform_checks.
  destruct (check_null_returns df) as [n ->].
  assert (E : Raising.check_duplicates df = Raises "TypeError").
  { unfold Raising.check_duplicates, collect. apply loop_raises.
    - intros [n' c] e' _. apply check_duplicates_column_raises_only.
    - exists (name, Lists cells). split; [exact Hin|].
      apply (check_duplicates_column_lists _ cells l Hlen Hl). }
  now rewrite E.
Qed.

End Frames.
End RaisingFacts.

(** ** Counting duplicates *)

Module DuplicateCount.
Import Float64 Pandas Spec Vocabulary Checker PandasFacts DuplicateCheck.

Section Values.
Context {V : Type} `{CellLaws V}.
Implicit Types (x y z : V) (l table : list V).

(** Values equal to one already in the table can be dropped beforehand. *)
Lemma unique_from_skip x l : forall t1 t2,
  unique_from (t1 ++ x :: t2) l
  = unique_from (t1 ++ t2) (filter (fun y => negb (eqv x y)) l).
Proof.
  induction l as [|y l IH]; intros t1 t2; simpl; [reflexivity|].
  rewrite existsb_app. simpl.
  destruct (eqv x y) eqn:Exy; simpl.
  - rewrite (eqv_sym _ _ Exy), orb_true_r. simpl. apply IH.
  - assert (Eyx : eqv y x = false).
    { destruct (eqv y x) eqn:E; [|reflexivity].
      rewrite (eqv_sym _ _ E) in Exy. discriminate. }
    rewrite Eyx, existsb_app. simpl.
    destruct (existsb (eqv y) t1 || existsb (eqv y) t2); [apply IH|].
    f_equal. apply (IH (y :: t1) t2).
Qed.

Lemma first_occurrences_cons x l :
  first_occurrences (x :: l)
  = x :: first_occurrences (filter (fun y => negb (eqv x y)) l).
Proof.
  rewrite <- !unique_from_first_occurrences. simpl.
  f_equal. apply (unique_from_skip x l [] []).
Qed.

Lemma occurrences_cons_same x l :
  eqv x x = true ->
  occurrences x (x :: l) = S (length (filter (eqv x) l)).
Proof. intros E. unfold occurrences. simpl. now rewrite E. Qed.

(** Counting [u] in [l] looks only at the values of [l] that differ from a
    value [x] that differs from [u]. *)
Lemma occurrences_filter_other x u l :
  eqv x u = false ->
  occurrences u (filter (fun y => negb (eqv x y)) l) = occurrences u l.
Proof.
  intros Exu. unfold occurrences. f_equal.
  induction l as [|y l IH]; simpl; [reflexivity|].
  destruct (eqv x y) eqn:Exy; simpl.
  - destruct (eqv u y) eqn:Euy; [|exact IH].
    rewrite (eqv_trans _ _ _ Exy (eqv_sym _ _ Euy)) in Exu. discriminate.
  - destruct (eqv u y); simpl; now rewrite IH.
Qed.

Lemma In_first_occurrences u l : In u (first_occurrences l) -> In u l.
Proof.
  unfold first_occurrences. intros Hin. apply in_map_iff in Hin.
  destruct Hin as ([i v] & <- & Hin). apply filter_In in Hin.
  destruct Hin as [Hin _]. now apply in_combine_r in Hin.
Qed.

Lemma repeated_in_cons x l :
  eqv x x = true ->
  repeated_in (x :: l)
  = (if (1 <=? length (filter (eqv x) l))%nat then [x] else [])
    ++ repeated_in (filter (fun y => negb (eqv x y)) l).
Proof.
  intros Ex. unfold repeated_in. rewrite first_occurrences_cons.
  cbn [filter]. rewrite (occurrences_cons_same x l Ex).
  assert (E : filter (fun v => (2 <=? occurrences v (x :: l))%nat)
                (first_occurrences (filter (fun y => negb (eqv x y)) l))
              = filter (fun v => (2 <=? occurrences v
                                          (filter (fun y => negb (eqv x y)) l))%nat)
                  (first_occurrences (filter (fun y => negb (eqv x y)) l))).
  { apply filter_ext_in. intros u Hu. apply In_first_occurrences in Hu.
    apply filter_In in Hu. destruct Hu as [_ Hu].
    apply negb_true_iff in Hu.
    rewrite (occurrences_filter_other x u l Hu).
    unfold occurrences. simpl.
    destruct (eqv u x) eqn:E; [|reflexivity].
    rewrite (eqv_sym _ _ E) in Hu. discriminate. }
  rewrite E. change (2 <=? S ?n)%nat with (1 <=? n)%nat.
  destruct (1 <=? length (filter (eqv x) l))%nat; reflexivity.
Qed.

Lemma length_split_eqv x l :
  length l = length (filter (eqv x) l)
             + length (filter (fun y => negb (eqv x y)) l).
Proof. symmetry. apply filter_length. Qed.

(** The values listed as repeated are at most as many as the excess rows,
    and there is none exactly when there is no excess row. *)
Lemma repeated_vs_excess : forall n l, length l <= n ->
  Forall (fun v => isna v = false) l ->
  length (repeated_in l) + length (first_occurrences l) <= length l
  /\ (repeated_in l = [] <-> length (first_occurrences l) = length l).
Proof.
  induction n as [|n IH]; intros l Hn Hp.
  - destruct l; [|simpl in Hn; lia]. split; [simpl; lia|]. split; reflexivity.
  - destruct l as [|x l]; [split; [simpl; lia|split; reflexivity]|].
    inversion Hp as [|? ? Hx Hl]; subst.
    pose proof (eqv_refl x Hx) as Ex.
    rewrite (repeated_in_cons x l Ex), first_occurrences_cons.
    set (B := filter (fun y => negb (eqv x y)) l).
    assert (HB : length B <= n).
    { unfold B. pose proof (filter_length_le (fun y => negb (eqv x y)) l).
      simpl in Hn. lia. }
    assert (HpB : Forall (fun v => isna v = false) B).
    { unfold B. apply Forall_forall. intros v Hv. apply filter_In in Hv.
      rewrite Forall_forall in Hl. apply Hl, Hv. }
    destruct (IH B HB HpB) as [IH1 IH2].
    pose proof (length_split_eqv x l) as Hs. fold B in Hs.
    rewrite length_app. cbn [length].
    destruct (1 <=? length (filter (eqv x) l))%nat eqn:EA.
    + apply Nat.leb_le in EA. split; [simpl; lia|].
      split; [discriminate|]. simpl. lia.
    + apply Nat.leb_gt in EA. split; [simpl; lia|].
      simpl. rewrite IH2. lia.
Qed.

Lemma present_Forall (cells : list V) :
  Forall (fun v => isna v = false) (present cells).
Proof.
  apply Forall_forall. intros v Hv. unfold present in Hv.
  apply filter_In in Hv. now apply negb_true_iff.
Qed.

Lemma repeated_values_excess (cells : list V) :
  length (repeated_values cells) + length (first_occurrences (present cells))
  <= length (present cells)
  /\ (repeated_values cells = []
      <-> length (first_occurrences (present cells)) = length (present cells)).
Proof.
  apply (repeated_vs_excess (length (present cells)) (present cells)
           (Nat.le_refl _) (present_Forall cells)).
Qed.

Lemma NoDup_first_occurrences : forall n l, length l <= n ->
  Forall (fun v => isna v = false) l -> NoDup (first_occurrences l).
Proof.
  induction n as [|n IH]; intros l Hn Hp.
  - destruct l; [constructor|simpl in Hn; lia].
  - destruct l as [|x l]; [constructor|].
    inversion Hp as [|? ? Hx Hl]; subst.
    rewrite first_occurrences_cons. constructor.
    + intros Hin. apply In_first_occurrences in Hin.
      apply filter_In in Hin. destruct Hin as [_ Hin].
      rewrite (eqv_refl x Hx) in Hin. discriminate.
    + apply IH.
      * pose proof (filter_length_le (fun y => negb (eqv x y)) l).
        simpl in Hn. lia.
      * apply Forall_forall. intros v Hv. apply filter_In in Hv.
        rewrite Forall_forall in Hl. apply Hl, Hv.
Qed.

Lemma NoDup_firstn {A : Type} (n : nat) (l : list A) :
  NoDup l -> NoDup (firstn n l).
Proof.
  intros Hnd. rewrite <- (firstn_skipn n l) in Hnd.
  now apply NoDup_app_remove_r in Hnd.
Qed.

Lemma NoDup_map_injective {A B : Type} (f : A -> B) (l : list A) :
  (forall a b : A, f a = f b -> a = b) -> NoDup l -> NoDup (map f l).
Proof.
  intros Hf. induction 1 as [|a l' Ha Hl IH]; simpl; constructor; [|exact IH].
  intros Hin. apply in_map_iff in Hin. destruct Hin as (b & Hb & Hin).
  apply Hf in Hb. now subst b.
Qed.

Lemma NoDup_repeated_values (cells : list V) :
  NoDup (repeated_values cells).
Proof.
  unfold repeated_values. apply NoDup_filter.
  apply (NoDup_first_occurrences (length (present cells)) _ (Nat.le_refl _)
           (present_Forall cells)).
Qed.

End Values.
End DuplicateCount.

(** ** Lists of rows *)

Module RowLists.
Import Float64 Pandas Spec Checker PandasFacts.

Lemma StronglySorted_seq (n : nat) : forall a, StronglySorted lt (seq a n).
Proof.
  induction n as [|n IH]; intros a; simpl; constructor.
  - apply IH.
  - apply Forall_forall. intros i Hi. apply in_seq in Hi. lia.
Qed.

Lemma StronglySorted_filter {A : Type} (R : A -> A -> Prop) (f : A -> bool)
  (l : list A) : StronglySorted R l -> StronglySorted R (filter f l).
Proof.
  induction 1 as [|x l Hl IH Hx]; simpl; [constructor|].
  destruct (f x); [|exact IH]. constructor; [exact IH|].
  rewrite Forall_forall in *. intros y Hy. apply filter_In in Hy.
  apply Hx, Hy.
Qed.

Lemma StronglySorted_firstn {A : Type} (R : A -> A -> Prop) (l : list A) :
  StronglySorted R l -> forall n, StronglySorted R (firstn n l).
Proof.
  induction 1 as [|x l Hl IH Hx]; intros [|n]; simpl; try constructor.
  - apply IH.
  - rewrite Forall_forall in *. intros y Hy. apply Hx.
    rewrite <- (firstn_skipn n l). apply in_or_app. now left.
Qed.

Lemma In_firstn {A : Type} (n : nat) (l : list A) (x : A) :
  In x (firstn n l) -> In x l.
Proof.
  intros Hin. rewrite <- (firstn_skipn n l). apply in_or_app. now left.
Qed.

Section Rows.
Context {V : Type}.

Lemma rows_where_sorted (P : V -> bool) (cells : list V) :
  StronglySorted lt (rows_where P cells).
Proof. apply StronglySorted_filter, StronglySorted_seq. Qed.

Lemma rows_where_In (P : V -> bool) (cells : list V) (i : nat) :
  In i (rows_where P cells) <->
  exists v, nth_error cells i = Some v /\ P v = true.
Proof.
  unfold rows_where, cell_at. rewrite filter_In, in_seq. split.
  - intros [_ Hi]. destruct (nth_error cells i) as [v|]; [|discriminate].
    exists v. auto.
  - intros (v & Hv & HP). rewrite Hv. split; [|exact HP].
    assert (i < length cells) by (apply nth_error_Some; congruence). lia.
Qed.

Lemma rows_where_bound (P : V -> bool) (cells : list V) (i : nat) :
  In i (rows_where P cells) -> i < length cells.
Proof.
  intros Hi. apply rows_where_In in Hi. destruct Hi as (v & Hv & _).
  apply nth_error_Some. congruence.
Qed.

Lemma rows_where_incl (P Q : V -> bool) (cells : list V) :
  (forall v, P v = true -> Q v = true) ->
  incl (rows_where P cells) (rows_where Q cells).
Proof.
  intros HPQ i Hi. apply rows_where_In in Hi. apply rows_where_In.
  destruct Hi as (v & Hv & HP). exists v. auto.
Qed.

Lemma rows_where_none (P : V -> bool) (cells : list V) :
  (forall v, P v = false) -> rows_where P cells = [].
Proof.
  intros HP. destruct (rows_where P cells) as [|i l] eqn:E; [reflexivity|].
  assert (Hi : In i (rows_where P cells)) by (rewrite E; now left).
  apply rows_where_In in Hi. destruct Hi as (v & _ & Hv).
  rewrite HP in Hv. discriminate.
Qed.

End Rows.
End RowLists.

(** ** float64 thresholds that exceed nothing *)

Module ThresholdFacts.

Lemma ltb_nan_l z : (nan <? z)%float = false.
Proof. rewrite FloatAxioms.ltb_spec. reflexivity. Qed.

Lemma ltb_infinity_l z : (infinity <? z)%float = false.
Proof.
  rewrite FloatAxioms.ltb_spec. unfold SFltb.
  change (Prim2SF infinity) with (S754_infinity false).
  destruct (Prim2SF z) as [s|s| |s m e]; try reflexivity;
    destruct s; reflexivity.
Qed.

End ThresholdFacts.

(** ** More on the checks *)

Section EngineProperties.
Import Float64 Pandas Spec Vocabulary Checker PandasFacts RowLists.
Context {R : Reduction}.

(** X1. The list of null rows is cut to 100 while the count is exact: it
    has min(100, null_count) entries, strictly increasing, all below the
    row count. *)
Theorem null_indices_capped_increasing (df : DataFrame) (name : string)
  (c : Column) :
  well_formed df -> In (name, c) (columns df) ->
  exists (k : nat) (idx : list nat),
    field name "null_count" (check_null df) = Some (PInt (Z.of_nat k))
    /\ field name "null_indices" (check_null df) = Some (int_list idx)
    /\ length idx = Nat.min 100 k
    /\ StronglySorted lt idx
    /\ Forall (fun i => i < len df) idx.
Proof.
  intros Hwf Hin. unfold field.
  rewrite (null_entry df name c Hwf Hin).
  rewrite <- (column_of_frame df name c Hwf Hin).
  assert (G : forall (V : Type) (C : Cell V) (cells : list V),
    exists (k : nat) (idx : list nat),
      PyDict.get "null_count" (check_null_cells (length cells) cells)
      = Some (PInt (Z.of_nat k))
      /\ PyDict.get "null_indices" (check_null_cells (length cells) cells)
         = Some (int_list idx)
      /\ length idx = Nat.min 100 k
      /\ StronglySorted lt idx
      /\ Forall (fun i => i < length cells) idx).
  { intros V C cells. rewrite NullCheck.check_null_cells_rows.
    exists (length (rows_where isna cells)),
      (firstn 100 (rows_where isna cells)).
    repeat split.
    - apply length_firstn.
    - apply StronglySorted_firstn, rows_where_sorted.
    - apply Forall_forall. intros i Hi. apply In_firstn in Hi.
      now apply rows_where_bound in Hi. }
  destruct c as [cells|cells]; apply G.
Qed.

(** X2. The null check and the duplicate check agree on the rows: for every
    column, the null_count of the one and the total_count of the other add
    up to the row count that the null check reports. *)
Theorem null_and_duplicate_counts_partition_rows (df : DataFrame)
  (name : string) (c : Column) :
  well_formed df -> In (name, c) (columns df) ->
  exists nulls values rows : Z,
    field name "null_count" (check_null df) = Some (PInt nulls)
    /\ field name "total_count" (check_duplicates df) = Some (PInt values)
    /\ field name "total_count" (check_null df) = Some (PInt rows)
    /\ (nulls + values = rows)%Z.
Proof.
  intros Hwf Hin. unfold field.
  rewrite (null_entry df name c Hwf Hin), (duplicates_entry df name c Hwf Hin).
  destruct c as [cells|cells];
    unfold check_null_column, check_duplicates_column, column_length;
    rewrite NullCheck.check_null_cells_rows,
      DuplicateCheck.check_duplicates_cells_values; cbv zeta;
    do 3 eexists; (split; [reflexivity|]); (split; [reflexivity|]);
    (split; [reflexivity|]);
    pose proof (NullCheck.missing_plus_present cells); lia.
Qed.

(** X3. duplicate_count is 0 exactly when duplicated_values is empty, the
    values listed are never more than duplicate_count or than 100, and none
    is listed twice. *)
Theorem duplicated_values_match_duplicate_count (df : DataFrame)
  (name : string) (c : Column) :
  well_formed df -> In (name, c) (columns df) ->
  exists (d : Z) (values : list pyval),
    field name "duplicate_count" (check_duplicates df) = Some (PInt d)
    /\ field name "duplicated_values" (check_duplicates df)
       = Some (PList values)
    /\ (d = 0%Z <-> values = [])
    /\ (Z.of_nat (length values) <= d)%Z
    /\ length values <= 100
    /\ NoDup values.
Proof.
  intros Hwf Hin. unfold field.
  rewrite (duplicates_entry df name c Hwf Hin).
  assert (G : forall (V : Type) (C : Cell V) (L : CellLaws V)
                     (cells : list V),
    (forall x y : V, to_py x = to_py y -> x = y) ->
    exists (d : Z) (values : list pyval),
      PyDict.get "duplicate_count"
        (check_duplicates_cells (length cells) cells) = Some (PInt d)
      /\ PyDict.get "duplicated_values"
           (check_duplicates_cells (length cells) cells) = Some (PList values)
      /\ (d = 0%Z <-> values = [])
      /\ (Z.of_nat (length values) <= d)%Z
      /\ length values <= 100
      /\ NoDup values).
  { intros V C L cells Hinj.
    rewrite DuplicateCheck.check_duplicates_cells_values. cbv zeta.
    destruct (DuplicateCount.repeated_values_excess cells) as [Hle Hiff].
    do 2 eexists. split; [reflexivity|]. split; [reflexivity|].
    split; [|split; [|split]].
    - rewrite firstn_map. split.
      + intros Hd. assert (E : repeated_values cells = [])
          by (apply Hiff; lia). now rewrite E.
      + intros E.
        destruct (repeated_values cells) as [|v l] eqn:Er;
          [|discriminate].
        destruct Hiff as [Hiff _]. specialize (Hiff eq_refl). lia.
    - rewrite length_firstn, length_map.
      pose proof (Nat.le_min_r 100 (length (repeated_values cells))). lia.
    - rewrite length_firstn. apply Nat.le_min_l.
    - apply DuplicateCount.NoDup_firstn.
      apply DuplicateCount.NoDup_map_injective; [exact Hinj|].
      apply DuplicateCount.NoDup_repeated_values. }
  destruct c as [cells|cells]; apply G; try exact _.
  - intros x y E. now injection E.
  - intros [x|] [y|] E; simpl in E; congruence.
Qed.

(** X4. A column with a non-missing value has a distinct value: unique_count
    is at least 1 and duplicate_count stays below total_count. *)
Theorem duplicate_count_below_total (df : DataFrame) (name : string)
  (c : Column) :
  well_formed df -> In (name, c) (columns df) -> present_count c <> 0%nat ->
  exists total uniq d : Z,
    field name "total_count" (check_duplicates df) = Some (PInt total)
    /\ field name "unique_count" (check_duplicates df) = Some (PInt uniq)
    /\ field name "duplicate_count" (check_duplicates df) = Some (PInt d)
    /\ (1 <= uniq <= total)%Z /\ (0 <= d < total)%Z.
Proof.
  intros Hwf Hin Hne. unfold field.
  rewrite (duplicates_entry df name c Hwf Hin).
  assert (G : forall (V : Type) (C : Cell V) (L : CellLaws V)
                     (cells : list V),
    length (present cells) <> 0%nat ->
    exists total uniq d : Z,
      PyDict.get "total_count" (check_duplicates_cells (length cells) cells)
      = Some (PInt total)
      /\ PyDict.get "unique_count"
           (check_duplicates_cells (length cells) cells) = Some (PInt uniq)
      /\ PyDict.get "duplicate_count"
           (check_duplicates_cells (length cells) cells) = Some (PInt d)
      /\ (1 <= uniq <= total)%Z /\ (0 <= d < total)%Z).
  { intros V C L cells Hp.
    rewrite DuplicateCheck.check_duplicates_cells_values. cbv zeta.
    do 3 eexists. repeat split; try reflexivity.
    all: pose proof (DuplicateCheck.duplicate_count_nonneg cells);
      destruct (present cells) as [|v l] eqn:E; [simpl in Hp; congruence|];
      rewrite DuplicateCount.first_occurrences_cons in *;
      cbn [length] in *; lia. }
  destruct c as [cells|cells]; apply G; try exact _; exact Hne.
Qed.

(** X5. Rows of missing entries do not affect the duplicate check: a column
    and the same column without those rows get the same entry. *)
Theorem duplicate_check_ignores_missing_rows (df df' : DataFrame)
  (name name' : string) (c : Column) :
  well_formed df -> In (name, c) (columns df) ->
  well_formed df' -> In (name', without_missing c) (columns df') ->
  PyDict.get name' (check_duplicates df')
  = PyDict.get name (check_duplicates df).
Proof.
  intros Hwf Hin Hwf' Hin'.
  rewrite (duplicates_entry df name c Hwf Hin),
    (duplicates_entry df' name' _ Hwf' Hin').
  assert (P : forall (V : Type) (C : Cell V) (cells : list V),
             present (present cells) = present cells).
  { intros V C cells. unfold present.
    induction cells as [|x l IH]; simpl; [reflexivity|].
    destruct (negb (isna x)) eqn:E; simpl; rewrite ?E, IH; reflexivity. }
  destruct c as [cells|cells]; simpl;
    rewrite !DuplicateCheck.check_duplicates_cells_values;
    unfold repeated_values; rewrite !P; reflexivity.
Qed.

(** X6. An outlier is never a missing entry: the rows listed by the outlier
    check are strictly increasing rows of the table that hold a value, at
    most 100 of them, and outlier_count and the number of missing rows
    together stay within the row count. *)
Theorem outlier_rows_hold_values (df : DataFrame) (name : string)
  (cells : list float) (t : float) :
  well_formed df -> In (name, Float64 cells) (columns df) ->
  exists (k : nat) (idx : list nat),
    field name "outlier_count" (check_outliers df t)
    = Some (PInt (Z.of_nat k))
    /\ field name "outlier_indices" (check_outliers df t)
       = Some (int_list idx)
    /\ length idx = Nat.min 100 k
    /\ StronglySorted lt idx
    /\ (forall i, In i idx ->
          i < len df /\ ~ In i (missing_rows (Float64 cells))
          /\ exists v, nth_error cells i = Some v /\ isna v = false)
    /\ k + length (missing_rows (Float64 cells)) <= len df.
Proof.
  intros Hwf Hin. unfold field.
  rewrite (outliers_entry df name _ t Hwf Hin).
  rewrite <- (column_of_frame df name _ Hwf Hin).
  unfold check_outliers_column, column_length, missing_rows.
  destruct (0 <? sample_std (present cells))%float eqn:Hstd.
  - rewrite (OutlierCheck.cells_flagged cells t Hstd). cbv zeta.
    exists (length (flagged_rows cells t)), (firstn 100 (flagged_rows cells t)).
    split; [reflexivity|]. split; [reflexivity|].
    split; [apply length_firstn|].
    split; [apply StronglySorted_firstn, rows_where_sorted|]. split.
    + intros i Hi. apply In_firstn in Hi. unfold flagged_rows in Hi.
      pose proof (rows_where_bound _ _ _ Hi) as Hb.
      apply rows_where_In in Hi. destruct Hi as (v & Hv & HP).
      apply andb_true_iff in HP. destruct HP as [HP _].
      apply negb_true_iff in HP. split; [exact Hb|]. split.
      * intros Hm. apply rows_where_In in Hm.
        destruct Hm as (w & Hw & Hna). congruence.
      * exists v. auto.
    + pose proof (NullCheck.missing_plus_present cells) as Hmp.
      unfold flagged_rows. rewrite length_rows_where.
      assert (length (filter
                (fun v => negb (isna v)
                          && (t <? z_score (sample_mean (present cells))
                                     (sample_std (present cells)) v)%float)
                cells) <= length (present cells)).
      { unfold present. apply OutlierCheck.length_filter_le.
        intros v Hv. now apply andb_true_iff in Hv. }
      lia.
  - assert (E : exists entry,
      check_outliers_cells (length cells) cells t = entry
      /\ PyDict.get "outlier_count" entry = Some (PInt 0)
      /\ PyDict.get "outlier_indices" entry = Some (PList [])).
    { destruct (present cells) as [|v l] eqn:Ep.
      - eexists. split; [apply (OutlierCheck.cells_no_data cells t Ep)|].
        split; reflexivity.
      - eexists. split.
        + apply OutlierCheck.cells_zero_std; rewrite Ep;
            [discriminate|exact Hstd].
        + split; reflexivity. }
    destruct E as (entry & -> & Hc & Hi). rewrite Hc, Hi.
    exists 0, []. split; [reflexivity|]. split; [reflexivity|].
    split; [reflexivity|]. split; [constructor|]. split.
    + intros i [].
    + pose proof (NullCheck.missing_plus_present cells). lia.
Qed.

(** X7. Nothing validates the threshold, and nothing exceeds NaN or
    infinity: with such a threshold no value of a numeric column is
    flagged. *)
Theorem nan_or_infinite_threshold_flags_nothing (df : DataFrame)
  (name : string) (cells : list float) (t : float) :
  well_formed df -> In (name, Float64 cells) (columns df) ->
  t = nan \/ t = infinity ->
  field name "outlier_count" (check_outliers df t) = Some (PInt 0)
  /\ field name "outlier_indices" (check_outliers df t) = Some (PList []).
Proof.
  intros Hwf Hin Ht. unfold field.
  rewrite (outliers_entry df name _ t Hwf Hin).
  unfold check_outliers_column, column_length.
  assert (Hno : forall z, (t <? z)%float = false).
  { intros z. destruct Ht as [-> | ->];
      [apply ThresholdFacts.ltb_nan_l | apply ThresholdFacts.ltb_infinity_l]. }
  destruct (0 <? sample_std (present cells))%float eqn:Hstd.
  - rewrite (OutlierCheck.cells_flagged cells t Hstd). cbv zeta.
    assert (E : flagged_rows cells t = []).
    { unfold flagged_rows. apply rows_where_none. intros v.
      now rewrite Hno, andb_false_r. }
    rewrite E. split; reflexivity.
  - destruct (present cells) as [|v l] eqn:Ep.
    + rewrite (OutlierCheck.cells_no_data cells t Ep). split; reflexivity.
    + rewrite OutlierCheck.cells_zero_std; rewrite ?Ep;
        [split; reflexivity | discriminate | exact Hstd].
Qed.

(** X8. A numeric column with exactly one non-missing value has no defined
    deviation and gets the zero-variance entry, whatever the threshold. *)
Theorem single_value_column_has_zero_variance_entry (df : DataFrame)
  (name : string) (cells : list float) (v t : float) :
  well_formed df -> In (name, Float64 cells) (columns df) ->
  present cells = [v] ->
  PyDict.get name (check_outliers df t)
  = Some [ ("outlier_count", PInt 0);
           ("total_count", PInt (Z.of_nat (len df)));
           ("outlier_ratio", PFloat 0);
           ("outlier_indices", PList []);
           ("mean", PFloat (np_sum [v] / 1)%float);
           ("std", PFloat 0);
           ("threshold", PFloat t);
           ("note", PStr note_zero_std) ]%string.
Proof.
  intros Hwf Hin Ev.
  rewrite (outliers_entry df name _ t Hwf Hin).
  rewrite <- (column_of_frame df name _ Hwf Hin).
  unfold check_outliers_column, column_length.
  now rewrite (OutlierCheck.cells_single_value cells t v Ev).
Qed.

(** X9. Raising the threshold only removes rows from the list: when at most
    100 values are flagged at the smaller threshold, every row listed at
    the larger one is listed at the smaller one. *)
Theorem outlier_rows_shrink_with_threshold (df : DataFrame) (name : string)
  (cells : list float) (t1 t2 : float) :
  well_formed df -> In (name, Float64 cells) (columns df) ->
  (t1 <=? t2)%float = true ->
  exists (k1 : nat) (idx1 idx2 : list nat),
    field name "outlier_count" (check_outliers df t1)
    = Some (PInt (Z.of_nat k1))
    /\ field name "outlier_indices" (check_outliers df t1)
       = Some (int_list idx1)
    /\ field name "outlier_indices" (check_outliers df t2)
       = Some (int_list idx2)
    /\ (k1 <= 100 -> incl idx2 idx1).
Proof.
  intros Hwf Hin Ht. unfold field.
  rewrite !(outliers_entry df name _ _ Hwf Hin).
  unfold check_outliers_column, column_length.
  destruct (0 <? sample_std (present cells))%float eqn:Hstd.
  - rewrite !(OutlierCheck.cells_flagged cells _ Hstd). cbv zeta.
    exists (length (flagged_rows cells t1)),
      (firstn 100 (flagged_rows cells t1)),
      (firstn 100 (flagged_rows cells t2)).
    repeat split. intros Hk i Hi. apply In_firstn in Hi.
    rewrite firstn_all2 by exact Hk.
    revert i Hi. unfold flagged_rows. apply rows_where_incl.
    intros v Hv. apply andb_true_iff in Hv. destruct Hv as [Hp Hz].
    rewrite Hp. simpl. eapply Float64Facts.leb_ltb_trans; eassumption.
  - assert (E : forall t, exists entry,
      check_outliers_cells (length cells) cells t = entry
      /\ PyDict.get "outlier_count" entry = Some (PInt 0)
      /\ PyDict.get "outlier_indices" entry = Some (PList [])).
    { intros t. destruct (present cells) as [|v l] eqn:Ep.
      - eexists. split; [apply (OutlierCheck.cells_no_data cells t Ep)|].
        split; reflexivity.
      - eexists. split.
        + apply OutlierCheck.cells_zero_std; rewrite Ep;
            [discriminate|exact Hstd].
        + split; reflexivity. }
    destruct (E t1) as (e1 & -> & Hc1 & Hi1).
    destruct (E t2) as (e2 & -> & _ & Hi2).
    rewrite Hc1, Hi1, Hi2. exists 0, [], []. repeat split.
    intros _ i [].
Qed.

End EngineProperties.

(** ** Strings and paths *)

Module PathFacts.
Import Script.
Local Open Scope string_scope.

Lemma append_assoc (a b c : string) : (a ++ b) ++ c = a ++ (b ++ c).
Proof. induction a as [|x a IH]; simpl; [reflexivity|]. now rewrite IH. Qed.

Lemma append_nil_r (a : string) : a ++ "" = a.
Proof. induction a as [|x a IH]; simpl; [reflexivity|]. now rewrite IH. Qed.

Lemma length_append (a b : string) :
  String.length (a ++ b) = String.length a + String.length b.
Proof. induction a as [|x a IH]; simpl; [reflexivity|]. now rewrite IH. Qed.

Lemma substring_prefix (a b : string) :
  substring 0 (String.length a) (a ++ b) = a.
Proof. induction a as [|x a IH]; simpl; [now destruct b|]. now rewrite IH. Qed.

Lemma substring_all (b : string) : substring 0 (String.length b) b = b.
Proof. induction b as [|x b IH]; simpl; [reflexivity|]. now rewrite IH. Qed.

Lemma substring_suffix (a b : string) :
  substring (String.length a) (String.length b) (a ++ b) = b.
Proof.
  induction a as [|x a IH]; simpl; [apply substring_all|exact IH].
Qed.

(** [rfind c s = None]: the character does not occur in [s]. *)
Lemma rfind_None_cons (c x : ascii) (s : string) :
  rfind c (String x s) = None <-> Ascii.eqb x c = false /\ rfind c s = None.
Proof.
  simpl. destruct (rfind c s); [split; [discriminate|intros [_ H]; discriminate]|].
  destruct (Ascii.eqb x c); split; try discriminate; auto.
  intros [H _]. discriminate.
Qed.

Lemma rfind_None_append (c : ascii) (a b : string) :
  rfind c (a ++ b) = None <-> rfind c a = None /\ rfind c b = None.
Proof.
  induction a as [|x a IH]; [simpl; tauto|].
  change (String x a ++ b) with (String x (a ++ b)).
  rewrite !rfind_None_cons, IH. tauto.
Qed.

(** The last occurrence is the one followed by no other. *)
Lemma rfind_last (c : ascii) (a b : string) :
  rfind c b = None -> rfind c (a ++ String c b) = Some (String.length a).
Proof.
  intros Hb. induction a as [|x a IH]; simpl.
  - now rewrite Hb, Ascii.eqb_refl.
  - now rewrite IH.
Qed.

Lemma split_nonempty (sep : ascii) (s : string) : split sep s <> [].
Proof.
  destruct s as [|c s]; simpl; [discriminate|].
  destruct (Ascii.eqb c sep); [discriminate|].
  destruct (split sep s); discriminate.
Qed.

Lemma split_without (sep : ascii) (s : string) :
  rfind sep s = None -> split sep s = [s].
Proof.
  induction s as [|c s IH]; [reflexivity|].
  intros H. apply rfind_None_cons in H. destruct H as [Hc Hs].
  simpl. now rewrite Hc, (IH Hs).
Qed.

(** Splitting distributes over a separator. *)
Lemma split_at (sep : ascii) (a b : string) :
  split sep (a ++ String sep b) = (split sep a ++ split sep b)%list.
Proof.
  induction a as [|c a IH]; simpl.
  - now rewrite Ascii.eqb_refl.
  - destruct (Ascii.eqb c sep); [now rewrite IH|].
    rewrite IH. pose proof (split_nonempty sep a) as Hne.
    destruct (split sep a); [congruence|reflexivity].
Qed.

Lemma leading_append (c : ascii) (a b : string) :
  leading c a < String.length a -> leading c (a ++ b) = leading c a.
Proof.
  induction a as [|x a IH]; simpl; [lia|].
  destruct (Ascii.eqb x c); [|reflexivity].
  intros H. rewrite IH by lia. reflexivity.
Qed.

Lemma leading_without (c : ascii) (s : string) :
  rfind c s = None -> leading c s = 0.
Proof.
  destruct s as [|x s]; [reflexivity|]. intros H.
  apply rfind_None_cons in H. destruct H as [Hx _]. simpl. now rewrite Hx.
Qed.

(** A file name with a non-empty base and a non-empty extension. *)
Section FileName.
Variables (base e : string).
Hypothesis base_nonempty : base <> "".
Hypothesis base_plain : rfind "/" base = None.
Hypothesis e_nonempty : e <> "".
Hypothesis e_plain : rfind "/" e = None.
Hypothesis e_last : rfind "." e = None.

Let file := base ++ "." ++ e.

Lemma file_plain : rfind "/" file = None.
Proof.
  unfold file. apply rfind_None_append. split; [exact base_plain|].
  change ("." ++ e) with (String "." e). apply rfind_None_cons. auto.
Qed.

Lemma file_length :
  String.length file = String.length base + S (String.length e).
Proof. unfold file. now rewrite length_append. Qed.

Lemma file_kept : kept file = true.
Proof.
  assert (Hl : 2 <= String.length file).
  { rewrite file_length. destruct base; [congruence|].
    destruct e; [congruence|]. simpl. lia. }
  unfold kept. apply andb_true_iff.
  split; apply negb_true_iff, String.eqb_neq; intros E; rewrite E in Hl;
    simpl in Hl; lia.
Qed.

Lemma file_rfind : rfind "." file = Some (String.length base).
Proof. unfold file. apply rfind_last, e_last. Qed.

Lemma file_dot_inside :
  ((0 <? String.length base)
   && (String.length base <? String.length file - 1))%nat = true.
Proof.
  rewrite file_length. destruct base as [|x b]; [congruence|].
  destruct e as [|y f]; [congruence|]. simpl.
  apply Nat.ltb_lt. lia.
Qed.

(** The final component of [prefix ++ file], for no directory or one that
    ends with a slash. *)
Lemma parts_of_file (d : string) :
  parts (Path (d ++ "/" ++ file)) = (parts (Path d) ++ [file])%list.
Proof.
  unfold Path. simpl. change ("/" ++ file) with (String "/" file).
  rewrite split_at, filter_app, (split_without _ _ file_plain).
  simpl. now rewrite file_kept.
Qed.

Lemma parts_of_bare_file : parts (Path file) = [file].
Proof.
  unfold Path. simpl. rewrite (split_without _ _ file_plain).
  simpl. now rewrite file_kept.
Qed.

Lemma name_of_file (prefix : string) :
  prefix = "" \/ (exists d, prefix = d ++ "/") ->
  name (Path (prefix ++ file)) = file.
Proof.
  intros [->|[d ->]]; unfold name.
  - change ("" ++ file) with file. now rewrite parts_of_bare_file.
  - rewrite append_assoc, parts_of_file. apply last_last.
Qed.

Lemma suffix_of_file (prefix : string) :
  prefix = "" \/ (exists d, prefix = d ++ "/") ->
  suffix (Path (prefix ++ file)) = "." ++ e.
Proof.
  intros Hp. unfold suffix. rewrite (name_of_file prefix Hp).
  rewrite file_rfind, file_dot_inside, file_length.
  replace (String.length base + S (String.length e) - String.length base)
    with (String.length ("." ++ e)) by (simpl; lia).
  apply substring_suffix.
Qed.

Lemma stem_of_file (prefix : string) :
  prefix = "" \/ (exists d, prefix = d ++ "/") ->
  stem (Path (prefix ++ file)) = base.
Proof.
  intros Hp. unfold stem. rewrite (name_of_file prefix Hp).
  rewrite file_rfind, file_dot_inside. apply substring_prefix.
Qed.

End FileName.

(** A final component without a dot, or with its only dot in front. *)
Lemma suffix_without_dot (prefix n : string) :
  prefix = "" \/ (exists d, prefix = d ++ "/") ->
  n <> "" -> rfind "/" n = None ->
  rfind "." n = None
  \/ (exists h, n = "." ++ h /\ h <> "" /\ rfind "." h = None) ->
  suffix (Path (prefix ++ n)) = "".
Proof.
  intros Hp Hne Hplain Hdot.
  assert (Hk : kept n = true).
  { unfold kept. apply andb_true_iff.
    split; apply negb_true_iff, String.eqb_neq; [exact Hne|].
    intros ->. destruct Hdot as [Hd|(h & Eh & Hh & _)]; [discriminate|].
    destruct h; [congruence|discriminate]. }
  assert (Hname : name (Path (prefix ++ n)) = n).
  { unfold name, Path. simpl. destruct Hp as [->|[d ->]].
    - change ("" ++ n) with n. rewrite (split_without _ _ Hplain).
      simpl. now rewrite Hk.
    - rewrite append_assoc. change ("/" ++ n) with (String "/" n).
      rewrite split_at, filter_app, (split_without _ _ Hplain).
      simpl. rewrite Hk. apply last_last. }
  unfold suffix. rewrite Hname. destruct Hdot as [Hd|(h & -> & _ & Hh)].
  - now rewrite Hd.
  - change ("." ++ h) with (String "." h). simpl. now rewrite Hh.
Qed.

End PathFacts.

(** ** Loading, checking and writing *)

Module ScriptFacts.
Import Float64 Pandas Checker Script.
Local Open Scope string_scope.

Lemma bind_Ok {A B : Type} (a : A) (trace : list event) (k : A -> IO B) :
  bind (Ok a, trace) k = (fst (k a), (trace ++ snd (k a))%list).
Proof. unfold bind. now destruct (k a). Qed.

Lemma bind_Err {A B : Type} (e : exception) (trace : list event)
  (k : A -> IO B) : bind (Err e, trace) k = (Err e, trace).
Proof. reflexivity. Qed.

Section Loading.
Context (world : World).

(** The sheets are read in order, up to the first that fails. *)
Lemma load_sheets_all (filepath : string) (frames : string -> DataFrame)
  (sheet_names : list string) : forall data_dict,
  (forall n, In n sheet_names -> read_excel world filepath n = Ok (frames n)) ->
  load_sheets world filepath sheet_names data_dict
  = (Ok (PyDict.loop (fun n => n) frames data_dict sheet_names),
     map (ReadSheet filepath) sheet_names).
Proof.
  induction sheet_names as [|n rest IH]; intros data_dict Hok;
    cbn [load_sheets]; [reflexivity|].
  unfold call. rewrite (Hok n (or_introl eq_refl)), bind_Ok.
  rewrite IH by (intros m Hm; apply Hok; now right). reflexivity.
Qed.

Lemma load_sheets_failing (filepath : string) (frames : string -> DataFrame)
  (before : list string) (bad : string) (after : list string)
  (e : exception) : forall data_dict,
  (forall n, In n before -> read_excel world filepath n = Ok (frames n)) ->
  read_excel world filepath bad = Err e ->
  load_sheets world filepath (before ++ bad :: after)%list data_dict
  = (Err e, map (ReadSheet filepath) (before ++ [bad])%list).
Proof.
  induction before as [|n rest IH]; intros data_dict Hok Hbad;
    cbn [load_sheets app].
  - unfold call. now rewrite Hbad.
  - unfold call. rewrite (Hok n (or_introl eq_refl)), bind_Ok.
    rewrite IH by (try exact Hbad; intros m Hm; apply Hok; now right).
    reflexivity.
Qed.



End Loading.
End ScriptFacts.

(** ** The script *)

Section ScriptProperties.
Import Float64 Pandas Checker Script PathFacts ScriptFacts.
Local Open Scope string_scope.
Context {R : Reduction} (world : World).

Lemma check_file_rejected (filepath : string)
  (output_filepath : option string) (t : float) (e : exception) :
  detect_file_type filepath = Err e ->
  check_file world filepath output_filepath t = (Err e, []).
Proof.
  intros Hft. unfold check_file, load_data, lift. now rewrite Hft.
Qed.

(** After the load, each of the three steps may raise, and what was done
    before it stays done. *)
Lemma check_file_after_load (filepath : string)
  (output_filepath : option string) (t : float)
  (data_dict : PyDict.dict DataFrame) (reads : list event) :
  load_data world filepath = (Ok data_dict, reads) ->
  let out := match output_filepath with
             | Some given => given
             | None => default_output filepath
             end in
  let results := Checker.check_file data_dict t in
  let line := "チェック結果を " ++ out ++ " に出力しました。" in
  check_file world filepath output_filepath t
  = match open_for_writing world out with
    | Err e => (Err e, reads)
    | Ok _ =>
        match json_dump world out results with
        | Err e => (Err e, (reads ++ [Created out])%list)
        | Ok _ =>
            match announce world line with
            | Err e => (Err e, (reads ++ [Created out; Wrote out results])%list)
            | Ok _ =>
                (Ok results,
                 (reads ++ [Created out; Wrote out results; Printed line])%list)
            end
        end
    end.
Proof.
  intros Hload. cbv zeta. unfold check_file. rewrite Hload, bind_Ok.
  unfold lift, emit.
  destruct (open_for_writing world _) as [[]|e]; cbn;
    [|now rewrite app_nil_r].
  destruct (json_dump world _ _) as [[]|e]; cbn; [|reflexivity].
  destruct (announce world _) as [[]|e]; reflexivity.
Qed.

(** X10. The file type is decided by the text after the last dot of the
    final path component, whatever its letter case and whatever the
    directory: .csv gives csv, .xlsx and .xls give excel, anything else
    raises ValueError. *)
Theorem detect_file_type_by_extension (prefix base e : string) :
  prefix = "" \/ (exists d, prefix = d ++ "/") ->
  base <> "" -> rfind "/" base = None ->
  e <> "" -> rfind "/" e = None -> rfind "." e = None ->
  let filepath := prefix ++ base ++ "." ++ e in
  let ext := lower ("." ++ e) in
  (ext = ".csv" -> detect_file_type filepath = Ok "csv")
  /\ (ext = ".xlsx" \/ ext = ".xls" -> detect_file_type filepath = Ok "excel")
  /\ (ext <> ".csv" -> ext <> ".xlsx" -> ext <> ".xls" ->
      exists message, detect_file_type filepath = Err (ValueError message)).
Proof.
  intros Hp Hb Hbs He Hes Hed. cbv zeta. unfold detect_file_type.
  rewrite (suffix_of_file base e Hb Hbs He Hes Hed prefix Hp).
  split; [|split].
  - intros ->. reflexivity.
  - intros [-> | ->]; reflexivity.
  - intros H1 H2 H3. apply String.eqb_neq in H1, H2, H3.
    rewrite H1, H2, H3. eexists. reflexivity.
Qed.

(** X11. A file whose name has no dot, or only a leading one (as ".csv"),
    has no extension and is rejected with ValueError. *)
Theorem detect_file_type_rejects_missing_extension (prefix n : string) :
  prefix = "" \/ (exists d, prefix = d ++ "/") ->
  n <> "" -> rfind "/" n = None ->
  rfind "." n = None
  \/ (exists h, n = "." ++ h /\ h <> "" /\ rfind "." h = None) ->
  detect_file_type (prefix ++ n)
  = Err (ValueError "サポートされていないファイルタイプ: ").
Proof.
  intros Hp Hn Hs Hd. unfold detect_file_type.
  now rewrite (suffix_without_dot prefix n Hp Hn Hs Hd).
Qed.

(** X12. A CSV file that can be read, and whose result file can be
    opened, written and announced, gives a report of exactly one sheet,
    named by the file name without directory and extension; the file is
    read once, the report is written to the output path, announced, and
    returned. *)
Theorem check_file_csv_one_sheet (prefix base e : string)
  (output_filepath : option string) (t : float) (df : DataFrame) :
  prefix = "" \/ (exists d, prefix = d ++ "/") ->
  base <> "" -> rfind "/" base = None ->
  e <> "" -> rfind "/" e = None -> rfind "." e = None ->
  lower ("." ++ e) = ".csv" ->
  let filepath := prefix ++ base ++ "." ++ e in
  let out := match output_filepath with
             | Some given => given
             | None => default_output filepath
             end in
  let report := [(base, perform_checks df t)] in
  let line := "チェック結果を " ++ out ++ " に出力しました。" in
  read_csv world filepath = Ok df ->
  open_for_writing world out = Ok tt ->
  json_dump world out report = Ok tt ->
  announce world line = Ok tt ->
  check_file world filepath output_filepath t
  = (Ok report,
     [ ReadCsv filepath; Created out; Wrote out report; Printed line ]).
Proof.
  intros Hp Hb Hbs He Hes Hed Hext. cbv zeta.
  intros Hread Hopen Hdump Hprint.
  assert (Hload : load_data world (prefix ++ base ++ "." ++ e)
                  = (Ok [(base, df)], [ReadCsv (prefix ++ base ++ "." ++ e)])).
  { unfold load_data, lift.
    destruct (detect_file_type_by_extension prefix base e Hp Hb Hbs He Hes Hed)
      as [Hcsv _].
    rewrite (Hcsv Hext), bind_Ok. cbn [fst snd String.eqb Ascii.eqb Bool.eqb].
    unfold load_csv_data, call. rewrite Hread.
    rewrite (stem_of_file base e Hb Hbs He Hes Hed prefix Hp).
    reflexivity. }
  rewrite (check_file_after_load _ output_filepath t _ _ Hload).
  change (Checker.check_file [(base, df)] t)
    with [(base, perform_checks df t)].
  now rewrite Hopen, Hdump, Hprint.
Qed.

(** X13. A readable workbook is loaded sheet by sheet: the dataset has the
    worksheets' names in worksheet order, each with its frame. *)
Theorem load_data_excel_sheets_in_order (filepath : string)
  (sheet_names : list string) (frames : string -> DataFrame) :
  detect_file_type filepath = Ok "excel" ->
  ExcelFile_sheet_names world filepath = Ok sheet_names ->
  NoDup sheet_names ->
  (forall n, In n sheet_names -> read_excel world filepath n = Ok (frames n)) ->
  load_data world filepath
  = (Ok (map (fun n => (n, frames n)) sheet_names),
     OpenedExcel filepath :: map (ReadSheet filepath) sheet_names).
Proof.
  intros Hft Hnames Hnd Hok. unfold load_data, lift.
  rewrite Hft, bind_Ok. cbn [fst snd String.eqb Ascii.eqb Bool.eqb].
  unfold load_excel_data, call. rewrite Hnames, bind_Ok.
  rewrite (load_sheets_all world filepath frames sheet_names _ Hok).
  cbn [fst snd app]. f_equal. f_equal.
  apply (PyDictFacts.collect_NoDup (fun n => n) frames).
  now rewrite map_id.
Qed.

(** X14. A sheet that cannot be read aborts the run with its exception:
    the sheets after it are not read and nothing is written or printed. *)
Theorem check_file_stops_at_unreadable_sheet (filepath : string)
  (output_filepath : option string) (t : float)
  (frames : string -> DataFrame) (before : list string) (bad : string)
  (after : list string) (e : exception) :
  detect_file_type filepath = Ok "excel" ->
  ExcelFile_sheet_names world filepath = Ok (before ++ bad :: after)%list ->
  (forall n, In n before -> read_excel world filepath n = Ok (frames n)) ->
  read_excel world filepath bad = Err e ->
  check_file world filepath output_filepath t
  = (Err e,
     OpenedExcel filepath :: map (ReadSheet filepath) (before ++ [bad])%list).
Proof.
  intros Hft Hnames Hok Hbad. unfold check_file, load_data, lift.
  rewrite Hft, bind_Ok. cbn [fst snd String.eqb Ascii.eqb Bool.eqb].
  unfold load_excel_data, call. rewrite Hnames, bind_Ok.
  rewrite (load_sheets_failing world filepath frames before bad after e _
             Hok Hbad).
  reflexivity.
Qed.

(** X15. A file of an unsupported type is rejected before anything is
    touched: the ValueError leaves [check_file] with an empty trace. *)
Theorem check_file_unsupported_type_touches_nothing (filepath : string)
  (output_filepath : option string) (t : float) (e : exception) :
  detect_file_type filepath = Err e ->
  check_file world filepath output_filepath t = (Err e, []).
Proof.
  apply check_file_rejected.
Qed.

(** X16. When loading succeeds, [check_file] opens the output file (the
    given path or else the default one), writes the report, announces it
    and returns that same report. Each of the three steps may raise, and
    the exception leaves what was done before it: nothing when the file
    cannot be opened, the created file when the write fails, the written
    file without its announcement when the print fails. *)
Theorem check_file_writes_what_it_returns (filepath : string)
  (output_filepath : option string) (t : float)
  (data_dict : PyDict.dict DataFrame) (reads : list event) :
  load_data world filepath = (Ok data_dict, reads) ->
  let out := match output_filepath with
             | Some given => given
             | None => default_output filepath
             end in
  let results := Checker.check_file data_dict t in
  let line := "チェック結果を " ++ out ++ " に出力しました。" in
  (open_for_writing world out = Ok tt ->
   json_dump world out results = Ok tt ->
   announce world line = Ok tt ->
   check_file world filepath output_filepath t
   = (Ok results,
      (reads ++ [Created out; Wrote out results; Printed line])%list))
  /\ (forall e, open_for_writing world out = Err e ->
      check_file world filepath output_filepath t = (Err e, reads))
  /\ (forall e, open_for_writing world out = Ok tt ->
      json_dump world out results = Err e ->
      check_file world filepath output_filepath t
      = (Err e, (reads ++ [Created out])%list))
  /\ (forall e, open_for_writing world out = Ok tt ->
      json_dump world out results = Ok tt ->
      announce world line = Err e ->
      check_file world filepath output_filepath t
      = (Err e, (reads ++ [Created out; Wrote out results])%list)).
Proof.
  intros Hload. cbv zeta.
  rewrite (check_file_after_load _ output_filepath t _ _ Hload).
  split; [|split; [|split]].
  - intros -> -> ->. reflexivity.
  - intros e ->. reflexivity.
  - intros e -> ->. reflexivity.
  - intros e -> -> ->. reflexivity.
Qed.

(** X17. Without an output path the result file goes beside the input: for
    [dir/base.ext] it is [base_check_result.json] in [dir], and for a bare
    [base.ext] it is [base_check_result.json]. *)
Theorem default_output_beside_input (base e : string) :
  base <> "" -> rfind "/" base = None ->
  e <> "" -> rfind "/" e = None -> rfind "." e = None ->
  default_output (base ++ "." ++ e) = base ++ "_check_result.json"
  /\ forall d, leading "/" d < String.length d ->
       default_output (d ++ "/" ++ base ++ "." ++ e)
       = str (joinpath (Path d) (base ++ "_check_result.json")).
Proof.
  intros Hb Hbs He Hes Hed.
  assert (Hout : rfind "/" (base ++ "_check_result.json") = None).
  { apply rfind_None_append. split; [exact Hbs|reflexivity]. }
  assert (Hparts : parts (Path (base ++ "_check_result.json"))
                   = [base ++ "_check_result.json"]).
  { unfold Path. cbn [parts]. rewrite (split_without _ _ Hout).
    cbn [filter]. unfold kept.
    assert (Hl : 2 <= String.length (base ++ "_check_result.json")).
    { rewrite length_append. simpl. lia. }
    replace (String.eqb (base ++ "_check_result.json") "") with false.
    2:{ symmetry. apply String.eqb_neq. intros E. rewrite E in Hl.
        simpl in Hl. lia. }
    replace (String.eqb (base ++ "_check_result.json") ".") with false.
    2:{ symmetry. apply String.eqb_neq. intros E. rewrite E in Hl.
        simpl in Hl. lia. }
    reflexivity. }
  assert (Hroot : root (Path (base ++ "_check_result.json")) = "").
  { unfold Path. cbn [root]. now rewrite (leading_without _ _ Hout). }
  split.
  - unfold default_output.
    pose proof (stem_of_file base e Hb Hbs He Hes Hed "" (or_introl eq_refl))
      as Hstem.
    change ("" ++ base ++ "." ++ e) with (base ++ "." ++ e) in Hstem.
    rewrite Hstem. unfold joinpath. rewrite Hroot, Hparts.
    cbn [String.eqb]. unfold parent.
    rewrite (parts_of_bare_file base e Hb Hbs He Hes Hed).
    cbn [removelast app]. unfold Path at 1. cbn [root].
    rewrite (leading_without _ _ (file_plain base e Hbs Hes)).
    unfold str. cbn [root parts join]. reflexivity.
  - intros d Hd. unfold default_output.
    pose proof (stem_of_file base e Hb Hbs He Hes Hed (d ++ "/")
                  (or_intror (ex_intro _ d eq_refl))) as Hstem.
    rewrite append_assoc in Hstem. rewrite Hstem.
    unfold joinpath. rewrite Hroot, Hparts. cbn [String.eqb].
    unfold parent. rewrite (parts_of_file base e Hb Hbs He Hes Hed d).
    rewrite removelast_last.
    replace (root (Path (d ++ "/" ++ base ++ "." ++ e))) with (root (Path d));
      [reflexivity|].
    unfold Path. cbn [root]. now rewrite (leading_append _ d _ Hd).
Qed.



End ScriptProperties.

(** ** The further properties on the examples *)

Section OnDisk.
Import Float64 Pandas Spec Vocabulary Checker Script Examples Disk.
Local Open Scope string_scope.

Lemma gaps_well_formed : well_formed gaps.
Proof.
  split; [repeat constructor|].
  repeat (constructor; [simpl; intuition discriminate|]); constructor.
Qed.

Lemma null_indices_on_gaps :
  well_formed gaps
  /\ In ("x", Float64 (repeat nan 101 ++ [1%float])%list) (columns gaps)
  /\ exists (k : nat) (idx : list nat),
       field "x" "null_count" (check_null gaps) = Some (PInt (Z.of_nat k))
       /\ field "x" "null_indices" (check_null gaps) = Some (int_list idx)
       /\ length idx = Nat.min 100 k
       /\ StronglySorted lt idx
       /\ Forall (fun i => i < len gaps) idx.
Proof.
  split; [exact gaps_well_formed|]. split; [simpl; auto|].
  exact (null_indices_capped_increasing gaps "x" _ gaps_well_formed
           (or_introl eq_refl)).
Defined.

Lemma counts_partition_readings :
  well_formed readings
  /\ In ("value", Float64 [1; 2; 2; 3; nan]%float) (columns readings)
  /\ exists nulls values rows : Z,
       field "value" "null_count" (check_null readings) = Some (PInt nulls)
       /\ field "value" "total_count" (check_duplicates readings)
          = Some (PInt values)
       /\ field "value" "total_count" (check_null readings) = Some (PInt rows)
       /\ (nulls + values = rows)%Z.
Proof.
  split; [exact readings_well_formed|]. split; [simpl; auto|].
  exact (null_and_duplicate_counts_partition_rows readings "value" _
           readings_well_formed (or_introl eq_refl)).
Defined.

Lemma duplicated_values_on_readings :
  well_formed readings
  /\ In ("value", Float64 [1; 2; 2; 3; nan]%float) (columns readings)
  /\ exists (d : Z) (values : list pyval),
       field "value" "duplicate_count" (check_duplicates readings)
       = Some (PInt d)
       /\ field "value" "duplicated_values" (check_duplicates readings)
          = Some (PList values)
       /\ (d = 0%Z <-> values = [])
       /\ (Z.of_nat (length values) <= d)%Z
       /\ length values <= 100
       /\ NoDup values.
Proof.
  split; [exact readings_well_formed|]. split; [simpl; auto|].
  exact (duplicated_values_match_duplicate_count readings "value" _
           readings_well_formed (or_introl eq_refl)).
Defined.

Lemma duplicate_count_on_readings :
  well_formed readings
  /\ In ("value", Float64 [1; 2; 2; 3; nan]%float) (columns readings)
  /\ present_count (Float64 [1; 2; 2; 3; nan]%float) <> 0%nat
  /\ exists total uniq d : Z,
       field "value" "total_count" (check_duplicates readings)
       = Some (PInt total)
       /\ field "value" "unique_count" (check_duplicates readings)
          = Some (PInt uniq)
       /\ field "value" "duplicate_count" (check_duplicates readings)
          = Some (PInt d)
       /\ (1 <= uniq <= total)%Z /\ (0 <= d < total)%Z.
Proof.
  split; [exact readings_well_formed|]. split; [simpl; auto|].
  split; [discriminate|].
  exact (duplicate_count_below_total readings "value" _
           readings_well_formed (or_introl eq_refl) ltac:(discriminate)).
Defined.

(** The numeric column of [readings] without its missing row. *)
Lemma duplicates_without_missing_row :
  let df' := {| len := 4;
                columns := [ ("v", Float64 [1; 2; 2; 3]%float) ] |} in
  well_formed readings
  /\ In ("value", Float64 [1; 2; 2; 3; nan]%float) (columns readings)
  /\ well_formed df'
  /\ In ("v", without_missing (Float64 [1; 2; 2; 3; nan]%float)) (columns df')
  /\ PyDict.get "v" (check_duplicates df')
     = PyDict.get "value" (check_duplicates readings).
Proof.
  assert (Hwf : well_formed
                  {| len := 4;
                     columns := [ ("v", Float64 [1; 2; 2; 3]%float) ] |}).
  { split; [repeat constructor|].
    repeat (constructor; [simpl; intuition discriminate|]); constructor. }
  cbv zeta. split; [exact readings_well_formed|]. split; [simpl; auto|].
  split; [exact Hwf|]. split; [left; reflexivity|].
  exact (duplicate_check_ignores_missing_rows readings _ "value" "v" _
           readings_well_formed (or_introl eq_refl) Hwf (or_introl eq_refl)).
Defined.

Lemma outlier_rows_on_scores :
  well_formed scores
  /\ In ("score", Float64 [10; 10; 10; 10; 1000]%float) (columns scores)
  /\ exists (k : nat) (idx : list nat),
       field "score" "outlier_count" (check_outliers (R := loop_sum) scores 1)
       = Some (PInt (Z.of_nat k))
       /\ field "score" "outlier_indices"
            (check_outliers (R := loop_sum) scores 1) = Some (int_list idx)
       /\ length idx = Nat.min 100 k.
Proof.
  split; [exact scores_well_formed|]. split; [simpl; auto|].
  destruct (outlier_rows_hold_values (R := loop_sum) scores "score" _ 1
              scores_well_formed (or_introl eq_refl))
    as (k & idx & Hk & Hi & Hl & _).
  exists k, idx. auto.
Defined.

Lemma nan_threshold_on_scores :
  well_formed scores
  /\ In ("score", Float64 [10; 10; 10; 10; 1000]%float) (columns scores)
  /\ field "score" "outlier_count" (check_outliers (R := loop_sum) scores nan)
     = Some (PInt 0)
  /\ field "score" "outlier_indices"
       (check_outliers (R := loop_sum) scores nan) = Some (PList []).
Proof.
  split; [exact scores_well_formed|]. split; [simpl; auto|].
  exact (nan_or_infinite_threshold_flags_nothing (R := loop_sum) scores
           "score" _ nan scores_well_formed (or_introl eq_refl)
           (or_introl eq_refl)).
Defined.

(** One value among missing cells. *)
Lemma single_value_on_gaps :
  well_formed gaps
  /\ In ("x", Float64 (repeat nan 101 ++ [1%float])%list) (columns gaps)
  /\ present (repeat nan 101 ++ [1%float])%list = [1%float]
  /\ field "x" "note" (check_outliers (R := loop_sum) gaps 3)
     = Some (PStr note_zero_std).
Proof.
  split; [exact gaps_well_formed|]. split; [simpl; auto|].
  split; [reflexivity|]. unfold field.
  rewrite (single_value_column_has_zero_variance_entry (R := loop_sum) gaps
             "x" _ 1 3 gaps_well_formed (or_introl eq_refl) eq_refl).
  reflexivity.
Defined.

Lemma outlier_rows_shrink_on_scores :
  well_formed scores
  /\ In ("score", Float64 [10; 10; 10; 10; 1000]%float) (columns scores)
  /\ (1 <=? 3)%float = true
  /\ exists (k1 : nat) (idx1 idx2 : list nat),
       field "score" "outlier_count" (check_outliers (R := loop_sum) scores 1)
       = Some (PInt (Z.of_nat k1))
       /\ field "score" "outlier_indices"
            (check_outliers (R := loop_sum) scores 1) = Some (int_list idx1)
       /\ field "score" "outlier_indices"
            (check_outliers (R := loop_sum) scores 3) = Some (int_list idx2)
       /\ (k1 <= 100 -> incl idx2 idx1).
Proof.
  split; [exact scores_well_formed|]. split; [simpl; auto|].
  split; [reflexivity|].
  exact (outlier_rows_shrink_with_threshold (R := loop_sum) scores "score" _
           1 3 scores_well_formed (or_introl eq_refl) eq_refl).
Defined.

Ltac file_name_hypotheses :=
  repeat match goal with
  | |- _ /\ _ => split
  | |- _ = "" \/ _ => first [left; reflexivity | right; eexists; reflexivity]
  | |- _ <> _ => discriminate
  | |- _ = _ => reflexivity
  end.

Lemma detect_upper_case_workbook :
  detect_file_type "data/sales.2024.XLSX" = Ok "excel".
Proof.
  refine (proj1 (proj2 (detect_file_type_by_extension "data/" "sales.2024"
                          "XLSX" _ _ _ _ _ _)) _);
    first [ right; exists "data"; reflexivity
          | discriminate
          | reflexivity
          | left; reflexivity ].
Defined.

Lemma detect_hidden_csv :
  detect_file_type ".csv"
  = Err (ValueError "サポートされていないファイルタイプ: ").
Proof.
  refine (detect_file_type_rejects_missing_extension "" ".csv" _ _ _ _).
  - left. reflexivity.
  - discriminate.
  - reflexivity.
  - right. exists "csv".
    split; [reflexivity|]. split; [discriminate|reflexivity].
Defined.

Lemma check_readings_csv :
  check_file (R := loop_sum) disk "data/readings.CSV" None 3
  = (Ok [("readings", perform_checks (R := loop_sum) readings 3)],
     [ ReadCsv "data/readings.CSV";
       Created "data/readings_check_result.json";
       Wrote "data/readings_check_result.json"
         [("readings", perform_checks (R := loop_sum) readings 3)];
       Printed "チェック結果を data/readings_check_result.json に出力しました。" ]).
Proof.
  refine (check_file_csv_one_sheet (R := loop_sum) disk "data/" "readings"
            "CSV" None 3 readings _ _ _ _ _ _ _ _ _ _ _);
    first [ right; exists "data"; reflexivity
          | discriminate
          | reflexivity ].
Defined.

Lemma load_book :
  load_data disk "book.xlsx"
  = (Ok [("readings", readings); ("scores", scores)],
     [ OpenedExcel "book.xlsx"; ReadSheet "book.xlsx" "readings";
       ReadSheet "book.xlsx" "scores" ]).
Proof.
  refine (load_data_excel_sheets_in_order disk "book.xlsx"
            ["readings"; "scores"] sheet _ _ _ _).
  - reflexivity.
  - reflexivity.
  - repeat (constructor; [simpl; intuition discriminate|]); constructor.
  - intros n [<-|[<-|[]]]; reflexivity.
Defined.

Lemma check_damaged_workbook :
  check_file (R := loop_sum) disk "damaged.xls" None 3
  = (Err (ValueError "Worksheet named 'broken' not found"),
     [ OpenedExcel "damaged.xls"; ReadSheet "damaged.xls" "readings";
       ReadSheet "damaged.xls" "broken" ]).
Proof.
  refine (check_file_stops_at_unreadable_sheet (R := loop_sum) disk
            "damaged.xls" None 3 sheet ["readings"] "broken" ["scores"] _
            _ _ _ _).
  - reflexivity.
  - reflexivity.
  - intros n [<-|[]]. reflexivity.
  - reflexivity.
Defined.

Lemma check_text_file :
  check_file (R := loop_sum) disk "notes.txt" None 3
  = (Err (ValueError "サポートされていないファイルタイプ: .txt"), []).
Proof.
  exact (check_file_unsupported_type_touches_nothing (R := loop_sum) disk
           "notes.txt" None 3 _ eq_refl).
Defined.

Lemma check_book_given_output :
  check_file (R := loop_sum) disk "book.xlsx" (Some "out.json") 3
  = (Ok (Checker.check_file (R := loop_sum) workbook 3),
     [ OpenedExcel "book.xlsx"; ReadSheet "book.xlsx" "readings";
       ReadSheet "book.xlsx" "scores";
       Created "out.json";
       Wrote "out.json" (Checker.check_file (R := loop_sum) workbook 3);
       Printed "チェック結果を out.json に出力しました。" ]).
Proof.
  exact (proj1 (check_file_writes_what_it_returns (R := loop_sum) disk
                  "book.xlsx" (Some "out.json") 3 workbook _ eq_refl)
           eq_refl eq_refl eq_refl).
Defined.

Lemma default_output_of_nested_file :
  default_output "reports/2024/sales.csv"
  = "reports/2024/sales_check_result.json".
Proof.
  refine (eq_trans
            (proj2 (default_output_beside_input "sales" "csv" _ _ _ _ _)
               "reports/2024" _) _);
    first [ discriminate | reflexivity | (simpl; lia) ].
Defined.


End OnDisk.
(** ** The orchestrator and exceptions *)

Section Orchestrator.
Import Float64 Pandas Spec Checker Raising RaisingFacts.
Context {R : Reduction}.

(** C9 (as amended). For every dataset on which no check raises, the
    orchestrator returns the report: the sheets in dataset order, each with
    exactly the three keys null_check, duplicate_check and outlier_check,
    each mapping every column of the sheet's table, in table order, to that
    check's result for the column. Failures are not isolated: nothing
    catches an exception, so a check that raises on one column (the
    duplicate check on a column of lists raises TypeError) makes
    [perform_checks] raise for the whole table, and a table on which
    [perform_checks] raises makes the loop over the sheets raise, with no
    result for any other column or sheet. *)
Theorem report_shape_and_exception_propagation :
  (forall (data_dict : PyDict.dict DataFrame) (t : float),
     NoDup (PyDict.keys data_dict) ->
     (forall sheet df, In (sheet, df) data_dict -> well_formed df) ->
     Raising.check_file (hashable_dataset data_dict) t
     = Returns (Checker.check_file data_dict t)
     /\ PyDict.keys (Checker.check_file data_dict t) = PyDict.keys data_dict
     /\ forall sheet df, In (sheet, df) data_dict ->
        exists nulls dups outs,
          PyDict.get sheet (Checker.check_file data_dict t)
          = Some [ ("null_check", nulls);
                   ("duplicate_check", dups);
                   ("outlier_check", outs) ]%string
          /\ PyDict.keys nulls = map fst (columns df)
          /\ PyDict.keys dups = map fst (columns df)
          /\ PyDict.keys outs = map fst (columns df)
          /\ forall name c, In (name, c) (columns df) ->
               PyDict.get name nulls
               = Some (Checker.check_null_column (len df) c)
               /\ PyDict.get name dups
                  = Some (Checker.check_duplicates_column (len df) c)
               /\ PyDict.get name outs
                  = Some (Checker.check_outliers_column (len df) c t))
  /\ (forall (df : AnyFrame) (t : float) (name : string)
             (cells : list (option (list string))) (l : list string),
        In (name, Lists cells) (frame_columns df) ->
        length cells = frame_len df -> In (Some l) cells ->
        Raising.perform_checks df t = Raises "TypeError")
  /\ (forall (data_dict : PyDict.dict AnyFrame) (t : float) (sheet : string)
             (df : AnyFrame),
        In (sheet, df) data_dict ->
        Raising.perform_checks df t = Raises "TypeError" ->
        Raising.check_file data_dict t = Raises "TypeError").
Proof.
  split; [|split].
  - intros data_dict t Hnd Hwf. split; [apply check_file_hashable|].
    apply (report_covers_sheets_and_columns data_dict t Hnd Hwf).
  - intros df t name cells l. apply perform_checks_lists.
  - intros data_dict t sheet df Hin Hraise.
    unfold Raising.check_file, collect. apply loop_raises.
    + intros [s f] e _. apply perform_checks_raises_only.
    + exists (sheet, df). auto.
Qed.

End Orchestrator.

Section OnTagged.
Import Float64 Pandas Spec Checker Raising Examples Tagged.
Local Open Scope string_scope.

Lemma report_or_exception_on_workbooks :
  NoDup (PyDict.keys workbook)
  /\ Raising.check_file (R := loop_sum) (hashable_dataset workbook) 3
     = Returns (Checker.check_file (R := loop_sum) workbook 3)
  /\ In ("tags", Lists [Some ["a"]; Some ["b"; "c"]]) (frame_columns tagged)
  /\ In ("tagged", tagged) tagged_workbook
  /\ Raising.check_file (R := loop_sum) tagged_workbook 3
     = Raises "TypeError".
Proof.
  assert (Hnd : NoDup (PyDict.keys workbook))
    by (repeat (constructor; [simpl; intuition discriminate|]); constructor).
  assert (Hwf : forall sheet df, In (sheet, df) workbook -> well_formed df).
  { intros sheet df [E|[E|[]]]; injection E as _ <-;
      [exact readings_well_formed|exact scores_well_formed]. }
  pose proof (report_shape_and_exception_propagation (R := loop_sum))
    as [Hshape [Hcolumn Hsheet]].
  split; [exact Hnd|].
  split; [exact (proj1 (Hshape workbook 3%float Hnd Hwf))|].
  split; [right; left; reflexivity|].
  split; [left; reflexivity|].
  apply (Hsheet tagged_workbook 3%float "tagged" tagged (or_introl eq_refl)).
  apply (Hcolumn tagged 3%float "tags" [Some ["a"]; Some ["b"; "c"]] ["a"]
           (or_intror (or_introl eq_refl)) eq_refl (or_introl eq_refl)).
Defined.

(** C9, as stated, fails: the duplicate check raises TypeError on the column
    of lists, and with it the checks of the whole table and of the whole
    workbook. The null check of the same table and the checks of the other
    sheets, which do not raise, are not produced. *)
Lemma column_of_lists_aborts_every_check :
  Raising.check_null tagged
  = Returns
      [ ("id", [ ("null_count", PInt 0); ("total_count", PInt 2);
                 ("null_ratio", PFloat 0); ("null_indices", PList []) ]);
        ("tags", [ ("null_count", PInt 0); ("total_count", PInt 2);
                   ("null_ratio", PFloat 0); ("null_indices", PList []) ]) ]
  /\ Raising.check_duplicates tagged = Raises "TypeError"
  /\ Raising.perform_checks (R := loop_sum) tagged 3 = Raises "TypeError"
  /\ Raising.check_file (R := loop_sum) (hashable_dataset workbook) 3
     = Returns (Checker.check_file (R := loop_sum) workbook 3)
  /\ Raising.check_file (R := loop_sum) tagged_workbook 3
     = Raises "TypeError"
  /\ (forall report,
        Raising.check_file (R := loop_sum) tagged_workbook 3
        <> Returns report).
Proof.
  split; [vm_compute; reflexivity|].
  split; [vm_compute; reflexivity|].
  split; [vm_compute; reflexivity|].
  split; [vm_compute; reflexivity|].
  split; [vm_compute; reflexivity|].
  intros report. vm_compute. discriminate.
Qed.

End OnTagged.
